(** * users/auth.go: password hashing and JWT issuing / verification

    A shallow embedding of [users/auth.go] of trackit-server.  The Go file
    is small: two wrappers around bcrypt, the claims structure, the token
    issuer [generateToken], the key function [getTokenSigningKey], the
    claims check [areClaimsValid] and the verifier [testToken].

    Everything the file imports is kept at the level of its interface:
    - the wall clock ([time.Now]) is a sequence of readings held in the
      [World];
    - bcrypt, the MAC primitive, the user lookup of the [users] package and
      the loaded configuration are fields of [Packages], the JSON/base64
      codec of jwt-go is [Codec];
    - the control flow of [jwt.ParseWithClaims] (decode, look the method
      up, call the key function, validate the registered claims, verify
      the signature) is written out, since [testToken] hands it a callback. *)

From Stdlib Require Import ZArith NArith List String Ascii Bool Lia.
From Stdlib Require Import Strings.Byte DecimalString.
Import ListNotations.

Open Scope string_scope.
Open Scope list_scope.
Open Scope Z_scope.

(** ** Go values *)

(** [[]byte] and the conversions [[]byte(s)] / [string(b)]. *)
Definition bytes := list byte.
Definition bytes_of_string (s : string) : bytes := list_byte_of_string s.
Definition string_of_bytes (b : bytes) : string := string_of_list_byte b.

(** The [error] interface.  [errorString] is what [errors.New] and
    [fmt.Errorf] build; [ValidationError] is [jwt.ValidationError] with its
    [Inner] error and its [Errors] bit field. *)
#[warnings="-register-all"]
Inductive error : Type :=
| errorString (s : string)
| ValidationError (Inner : option error) (Errors : N).

Definition errors_New (text : string) : error := errorString text.

(** [fmt.Sprintf("%v", v)] for a header entry: a missing entry is the nil
    interface. *)
Definition fmt_v (v : option string) : string :=
  match v with
  | Some s => s
  | None => "<nil>"
  end.

(** Bits of [jwt.ValidationError.Errors]. *)
Definition ValidationErrorMalformed        : N := 1.
Definition ValidationErrorUnverifiable     : N := 2.
Definition ValidationErrorSignatureInvalid : N := 4.
Definition ValidationErrorClaimsInvalid    : N := 512.

Definition ErrSignatureInvalid : error := errors_New "signature is invalid".

(** ** Package [time] *)

(** A [time.Time] is its number of nanoseconds since the Unix epoch, a
    [time.Duration] a number of nanoseconds. *)
Definition Time := Z.
Definition Duration := Z.

Definition Nanosecond : Duration := 1.
Definition Second : Duration := 1000000000 * Nanosecond.
Definition Minute : Duration := 60 * Second.
Definition Hour : Duration := 60 * Minute.

Definition Time_Add (t : Time) (d : Duration) : Time := t + d.
Definition Time_Unix (t : Time) : Z := t / Second.

(** ** The world: clock, entropy, and a ghost count of MAC comparisons *)

Record World := mkWorld {
  clock : nat -> Time;      (* the successive readings of the wall clock *)
  ticks : nat;              (* how many readings were taken *)
  entropy : N;              (* state of crypto/rand *)
  compared : nat            (* ghost: signature comparisons performed *)
}.

Definition M (A : Type) : Type := World -> A * World.

Definition ret {A} (a : A) : M A := fun w => (a, w).
Definition bind {A B} (m : M A) (k : A -> M B) : M B :=
  fun w => let (a, w') := m w in k a w'.

Notation "x <- m ;; k" := (bind m (fun x => k))
  (at level 100, m at next level, right associativity).

Definition time_Now : M Time :=
  fun w => (clock w (ticks w),
            mkWorld (clock w) (S (ticks w)) (entropy w) (compared w)).

Definition note_comparison : M unit :=
  fun w => (tt, mkWorld (clock w) (ticks w) (entropy w) (S (compared w))).

(** The world after the parser has read the clock once and compared one
    signature. *)
Definition after_verification (w : World) : World :=
  mkWorld (clock w) (S (ticks w)) (entropy w) (S (compared w)).

(** ** Package [jwt]: signing methods *)

Inductive HashAlg := SHA256 | SHA384 | SHA512.

(** The concrete types behind the [jwt.SigningMethod] interface; the type
    assertion of [getTokenSigningKey] looks at the constructor. *)
Inductive SigningMethod :=
| SigningMethodHMAC (h : HashAlg)
| SigningMethodRSA (h : HashAlg)
| SigningMethodRSAPSS (h : HashAlg)
| SigningMethodECDSA (h : HashAlg)
| signingMethodNone.

Definition SigningMethodHS256 : SigningMethod := SigningMethodHMAC SHA256.
Definition SigningMethodHS384 : SigningMethod := SigningMethodHMAC SHA384.
Definition SigningMethodHS512 : SigningMethod := SigningMethodHMAC SHA512.

Definition hash_suffix (h : HashAlg) : string :=
  match h with
  | SHA256 => "256"
  | SHA384 => "384"
  | SHA512 => "512"
  end.

Definition Alg (m : SigningMethod) : string :=
  match m with
  | SigningMethodHMAC h => "HS" ++ hash_suffix h
  | SigningMethodRSA h => "RS" ++ hash_suffix h
  | SigningMethodRSAPSS h => "PS" ++ hash_suffix h
  | SigningMethodECDSA h => "ES" ++ hash_suffix h
  | signingMethodNone => "none"
  end.

Definition registered_methods : list SigningMethod :=
  [ SigningMethodHMAC SHA256; SigningMethodHMAC SHA384; SigningMethodHMAC SHA512;
    SigningMethodRSA SHA256; SigningMethodRSA SHA384; SigningMethodRSA SHA512;
    SigningMethodRSAPSS SHA256; SigningMethodRSAPSS SHA384; SigningMethodRSAPSS SHA512;
    SigningMethodECDSA SHA256; SigningMethodECDSA SHA384; SigningMethodECDSA SHA512;
    signingMethodNone ].

(** [jwt.GetSigningMethod]: the registry, searched by name. *)
Definition GetSigningMethod (alg : string) : option SigningMethod :=
  find (fun m => String.eqb (Alg m) alg) registered_methods.

(** The type assertion of a method to a pointer to [jwt.SigningMethodHMAC]. *)
Definition as_SigningMethodHMAC (m : SigningMethod) : option HashAlg :=
  match m with
  | SigningMethodHMAC h => Some h
  | _ => None
  end.

(** A token header, [map[string]interface{}] restricted to string values. *)
Definition Header := list (string * string).

Fixpoint header_get (h : Header) (k : string) : option string :=
  match h with
  | [] => None
  | (k', v) :: rest => if String.eqb k' k then Some v else header_get rest k
  end.

(** [hmac.Equal]: equality of two MACs. *)
Fixpoint hmac_Equal (a b : bytes) : bool :=
  match a, b with
  | [], [] => true
  | x :: a', y :: b' => Byte.eqb x y && hmac_Equal a' b'
  | _, _ => false
  end.

(** ** What the file imports *)

(** [config.Configuration], as far as [init] reads it. *)
Record Configuration := {
  HashDifficulty : N;
  AuthIssuer : string;
  AuthSecret : bytes
}.

(** The other files of package [users], package [config] and [db], bcrypt,
    and the primitives of jwt-go that do not depend on the claims type. *)
Class Packages := {
  (* package users: the User structure and its lookup *)
  User : Type;
  User_Id : User -> Z;
  User_zero : User;
  DB : Type;
  db_Db : DB;
  GetUserWithId : DB -> Z -> User * option error;
  (* package config *)
  config_LoadConfiguration : Configuration;
  (* golang.org/x/crypto/bcrypt *)
  bcrypt_GenerateFromPassword : bytes -> N -> M (bytes * option error);
  bcrypt_CompareHashAndPassword : bytes -> bytes -> option error;
  (* jwt.StandardClaims and its Valid method, given the current Unix time *)
  StandardClaims : Type;
  StandardClaims_zero : StandardClaims;
  StandardClaims_Valid : StandardClaims -> Z -> option error;
  (* crypto/hmac keyed by the hash, and the base64url segment codec *)
  hmac_Sum : HashAlg -> bytes -> bytes -> bytes;
  EncodeSegment : bytes -> string;
  DecodeSegment : string -> bytes + error;
  (* Sign and Verify of the signing methods that are not HMAC *)
  other_Sign : SigningMethod -> string -> bytes -> string + error;
  other_Verify : SigningMethod -> string -> string -> bytes -> option error
}.

Section Auth.

Context {P : Packages}.

(** ** Package-level variables, set by [init] *)

Definition bCryptCost : N := HashDifficulty config_LoadConfiguration.
Definition jwtIssuer : string := AuthIssuer config_LoadConfiguration.
Definition jwtSecret : bytes := AuthSecret config_LoadConfiguration.

(** ** Passwords *)

(** [getPasswordHash] generates a hash string for a given password. *)
Definition getPasswordHash (password : string) : M (string * option error) :=
  r <- bcrypt_GenerateFromPassword (bytes_of_string password) bCryptCost ;;
  let (hash, err) := r in
  ret (string_of_bytes hash, err).

(** [passwordMatchesHash] checks whether a password matches a hash. *)
Definition passwordMatchesHash (password hash : string) : option error :=
  bcrypt_CompareHashAndPassword (bytes_of_string hash) (bytes_of_string password).

(** ** Claims and tokens *)

(** [jwtClaims]: the four claims of this software, and the embedded
    [jwt.StandardClaims] whose [Valid] method it inherits. *)
Record jwtClaims := {
  Issuer : string;
  NotBefore : Z;
  Expires : Z;
  Subject : Z;
  Standard : StandardClaims
}.

(** The dynamic type of a [jwt.Claims] value. *)
Inductive Claims :=
| ClaimsJwt (c : jwtClaims)
| ClaimsMap (m : list (string * string)).

Definition Claims_Valid (c : Claims) (now : Z) : option error :=
  match c with
  | ClaimsJwt c => StandardClaims_Valid (Standard c) now
  | ClaimsMap _ => None
  end.

Record Token := {
  Raw : string;
  Method : SigningMethod;
  TokenHeader : Header;
  TokenClaims : Claims;
  Signature : string;
  Valid : bool
}.

(** What the decoding of the three segments of a token string yields. *)
Record Decoded := {
  dec_header : Header;
  dec_claims : jwtClaims;
  dec_signing : string;      (* header segment, a dot, claims segment *)
  dec_signature : string     (* third segment *)
}.

(** The codec of jwt-go: [Token.SigningString], and the splitting and
    decoding done by the parser when it is handed a pointer to [jwtClaims]. *)
Class Codec := {
  jwt_SigningString : Header -> Claims -> string + error;
  jwt_decodeSegments : string -> Decoded + error
}.

Context {C : Codec}.

(** ** Package [jwt]: signing, verifying, parsing *)

Definition Method_Sign (m : SigningMethod) (signingString : string) (key : bytes)
  : string + error :=
  match m with
  | SigningMethodHMAC h =>
      inl (EncodeSegment (hmac_Sum h key (bytes_of_string signingString)))
  | _ => other_Sign m signingString key
  end.

Definition Method_Verify (m : SigningMethod) (signingString signature : string)
  (key : bytes) : M (option error) :=
  match m with
  | SigningMethodHMAC h =>
      match DecodeSegment signature with
      | inr err => ret (Some err)
      | inl sig =>
          _ <- note_comparison ;;
          ret (if hmac_Equal sig (hmac_Sum h key (bytes_of_string signingString))
               then None else Some ErrSignatureInvalid)
      end
  | _ =>
      _ <- note_comparison ;;
      ret (other_Verify m signingString signature key)
  end.

Definition jwt_NewWithClaims (method : SigningMethod) (claims : jwtClaims) : Token :=
  {| Raw := "";
     Method := method;
     TokenHeader := [("typ", "JWT"); ("alg", Alg method)];
     TokenClaims := ClaimsJwt claims;
     Signature := "";
     Valid := false |}.

Definition Token_SignedString (t : Token) (key : bytes) : string * option error :=
  match jwt_SigningString (TokenHeader t) (TokenClaims t) with
  | inr err => ("", Some err)
  | inl sstr =>
      match Method_Sign (Method t) sstr key with
      | inr err => ("", Some err)
      | inl sig => ((sstr ++ "." ++ sig)%string, None)
      end
  end.

Definition Keyfunc := Token -> bytes + error.

(** [vErr] of [ParseWithClaims]: inner error and bit field. *)
Definition claims_vErr (r : option error) : option error * N :=
  match r with
  | None => (None, 0%N)
  | Some (ValidationError inner flags) => (inner, flags)
  | Some err => (Some err, ValidationErrorClaimsInvalid)
  end.

Definition signature_vErr (v : option error * N) (r : option error)
  : option error * N :=
  match r with
  | None => v
  | Some err => (Some err, N.lor (snd v) ValidationErrorSignatureInvalid)
  end.

(** [jwt.ParseWithClaims(tokenString, &jwtClaims{}, keyFunc)].  The result
    is the token when the returned error is nil, the error otherwise. *)
Definition jwt_ParseWithClaims (tokenString : string) (keyFunc : Keyfunc)
  : M (Token + error) :=
  match jwt_decodeSegments tokenString with
  | inr err => ret (inr err)
  | inl d =>
      match header_get (dec_header d) "alg" with
      | None => ret (inr (ValidationError None ValidationErrorUnverifiable))
      | Some alg =>
          match GetSigningMethod alg with
          | None => ret (inr (ValidationError None ValidationErrorUnverifiable))
          | Some method =>
              let token := {| Raw := tokenString;
                              Method := method;
                              TokenHeader := dec_header d;
                              TokenClaims := ClaimsJwt (dec_claims d);
                              Signature := "";
                              Valid := false |} in
              match keyFunc token with
              | inr err =>
                  ret (inr (ValidationError (Some err) ValidationErrorUnverifiable))
              | inl key =>
                  now <- time_Now ;;
                  let vErr := claims_vErr
                    (Claims_Valid (TokenClaims token) (Time_Unix now)) in
                  sigErr <- Method_Verify method (dec_signing d) (dec_signature d) key ;;
                  let vErr := signature_vErr vErr sigErr in
                  if N.eqb (snd vErr) 0
                  then ret (inl {| Raw := tokenString;
                                   Method := method;
                                   TokenHeader := dec_header d;
                                   TokenClaims := ClaimsJwt (dec_claims d);
                                   Signature := dec_signature d;
                                   Valid := true |})
                  else ret (inr (ValidationError (fst vErr) (snd vErr)))
              end
          end
      end
  end.

(** ** Tokens *)

(** [generateToken] generates a valid JWT token for a given user. *)
Definition generateToken (user : User) : M (string * option error) :=
  t1 <- time_Now ;;
  t2 <- time_Now ;;
  let token := jwt_NewWithClaims SigningMethodHS256
    {| Issuer := jwtIssuer;
       NotBefore := Time_Unix (Time_Add t1 (-1 * Hour));
       Expires := Time_Unix (Time_Add t2 (60 * 24 * Hour));
       Subject := User_Id user;
       Standard := StandardClaims_zero |} in
  ret (Token_SignedString token jwtSecret).

(** The claims literal of [generateToken], for the two readings of the
    clock it takes. *)
Definition mintedClaims (user : User) (t1 t2 : Time) : jwtClaims :=
  {| Issuer := jwtIssuer;
     NotBefore := Time_Unix (Time_Add t1 (-1 * Hour));
     Expires := Time_Unix (Time_Add t2 (60 * 24 * Hour));
     Subject := User_Id user;
     Standard := StandardClaims_zero |}.

(** [getTokenSigningKey] is used by jwt-go to check whether a token is
    acceptable before verifying it. *)
Definition getTokenSigningKey (token : Token) : bytes + error :=
  match as_SigningMethodHMAC (Method token) with
  | None =>
      inr (errorString ("Unexpected signing method: "
                        ++ fmt_v (header_get (TokenHeader token) "alg") ++ ".")%string)
  | Some _ => inl jwtSecret
  end.

(** [areClaimsValid] checks whether the claims of a JWT token make it
    currently valid. *)
Definition areClaimsValid (claims : jwtClaims) : M bool :=
  t <- time_Now ;;
  let now := Time_Unix t in
  ret (String.eqb (Issuer claims) jwtIssuer
       && (NotBefore claims <=? now)
       && (now <? Expires claims)).

(** The body of [testToken], with the parser it calls as a parameter. *)
Definition testTokenWith (ParseWithClaims : string -> Keyfunc -> M (Token + error))
  (tokenString : string) : M (User * option error) :=
  let user := User_zero in
  r <- ParseWithClaims tokenString getTokenSigningKey ;;
  match r with
  | inl token =>
      match TokenClaims token, Valid token with
      | ClaimsJwt claims, true =>
          ok <- areClaimsValid claims ;;
          if ok
          then
            let userId := Subject claims in
            ret (GetUserWithId db_Db userId)
          else ret (user, Some (errors_New "Claims are invalid."))
      | _, _ => ret (user, Some (errors_New "Failed to read token."))
      end
  | inr err => ret (user, Some err)
  end.

(** [testToken] checks whether a JWT token is valid and retrieves the owning
    User if it is. *)
Definition testToken (tokenString : string) : M (User * option error) :=
  testTokenWith jwt_ParseWithClaims tokenString.

(** ** The failure causes the specification tells apart

    Why a set of claims fails the validity check at Unix time [now], in the
    words of the specification. *)
Inductive ClaimsFailure := IssuerMismatch | NotYetValid | Expired.

Definition spec_failure_causes (claims : jwtClaims) (now : Z) : list ClaimsFailure :=
  (if String.eqb (Issuer claims) jwtIssuer then [] else [IssuerMismatch])
  ++ (if NotBefore claims <=? now then [] else [NotYetValid])
  ++ (if now <? Expires claims then [] else [Expired]).

End Auth.

(** ** A small instance of the imports

    An in-memory user table, a fixed configuration and a textual token
    format: [alg.iss,nbf,exp,sub.mac], numbers in decimal, the MAC being the
    key followed by a checksum of the signing string.  It is used to run the
    definitions on concrete tokens. *)
Module Demo.

Record user := { id : Z; email : string }.

Definition no_user : user := {| id := 0; email := "" |}.

Definition table : list user :=
  [ {| id := 7; email := "ops@example.org" |};
    {| id := 42; email := "dev@example.org" |} ].

Definition lookup (db : list user) (i : Z) : user * option error :=
  match find (fun u => id u =? i) db with
  | Some u => (u, None)
  | None => (no_user, Some (errorString "sql: no rows in result set"))
  end.

Definition configuration : Configuration :=
  {| HashDifficulty := 10;
     AuthIssuer := "trackit";
     AuthSecret := bytes_of_string "s3cret" |}.

Definition print_Z (z : Z) : string := NilZero.string_of_int (Z.to_int z).

Definition parse_Z (s : string) : option Z :=
  option_map Z.of_int (NilZero.int_of_string s).

Definition checksum (msg : bytes) : Z :=
  fold_left (fun acc b => (acc * 31 + Z.of_N (Byte.to_N b)) mod 4294967296) msg 7.

Definition mac (h : HashAlg) (key msg : bytes) : bytes :=
  key ++ bytes_of_string (hash_suffix h ++ print_Z (checksum msg))%string.

(** A stand-in for bcrypt: the "hash" is the cost and the password behind a
    fixed prefix. *)
Definition hash_prefix : bytes := bytes_of_string "$demo$".

Definition generate (password : bytes) (cost : N) : M (bytes * option error) :=
  if (cost <=? 31)%N
  then ret (hash_prefix ++ password, None)
  else ret ([], Some (errorString "crypto/bcrypt: cost outside allowed range"))%list.

Definition compare (hash password : bytes) : option error :=
  if hmac_Equal hash (hash_prefix ++ password)
  then None
  else Some (errorString
    "crypto/bcrypt: hashedPassword is not the hash of the given password").

#[export] Instance packages : Packages := {|
  User := user;
  User_Id := id;
  User_zero := no_user;
  DB := list user;
  db_Db := table;
  GetUserWithId := lookup;
  config_LoadConfiguration := configuration;
  bcrypt_GenerateFromPassword := generate;
  bcrypt_CompareHashAndPassword := compare;
  StandardClaims := unit;
  StandardClaims_zero := tt;
  StandardClaims_Valid := fun _ _ => None;
  hmac_Sum := mac;
  EncodeSegment := string_of_bytes;
  DecodeSegment := fun s => inl (bytes_of_string s);
  other_Sign := fun _ _ _ => inr (errorString "key is invalid");
  other_Verify := fun _ _ _ _ => Some (errorString "key is of invalid type")
|}.

(** [strings.Split] on a one-character separator. *)
Fixpoint split_on (sep : ascii) (s : string) : list string :=
  match s with
  | EmptyString => [EmptyString]
  | String c rest =>
      if Ascii.eqb c sep
      then EmptyString :: split_on sep rest
      else match split_on sep rest with
           | [] => [String c EmptyString]
           | first :: others => String c first :: others
           end
  end.

Definition encode_claims (c : jwtClaims) : string :=
  (Issuer c ++ "," ++ print_Z (NotBefore c) ++ "," ++ print_Z (Expires c)
   ++ "," ++ print_Z (Subject c))%string.

Definition decode_claims (s : string) : option jwtClaims :=
  match split_on "," s with
  | [iss; nbf; exp; sub] =>
      match parse_Z nbf, parse_Z exp, parse_Z sub with
      | Some nbf, Some exp, Some sub =>
          Some {| Issuer := iss; NotBefore := nbf; Expires := exp;
                  Subject := sub; Standard := tt |}
      | _, _, _ => None
      end
  | _ => None
  end.

Definition signing_string (h : Header) (c : Claims) : string + error :=
  match header_get h "alg", c with
  | Some alg, ClaimsJwt c => inl (alg ++ "." ++ encode_claims c)%string
  | _, _ => inr (errorString "json: unsupported value")
  end.

Definition malformed : error := ValidationError None ValidationErrorMalformed.

Definition decode_segments (tokenString : string) : Decoded + error :=
  match split_on "." tokenString with
  | [hseg; cseg; sseg] =>
      match decode_claims cseg with
      | Some c =>
          inl {| dec_header := [("typ", "JWT"); ("alg", hseg)];
                 dec_claims := c;
                 dec_signing := (hseg ++ "." ++ cseg)%string;
                 dec_signature := sseg |}
      | None => inr malformed
      end
  | _ => inr malformed
  end.

#[export] Instance codec : Codec := {|
  jwt_SigningString := signing_string;
  jwt_decodeSegments := decode_segments
|}.

(** The clock starts at 2017-07-14T02:40:00Z and advances by a millisecond
    at each reading. *)
Definition start : Time := 1500000000 * Second.

Definition world_at (t : Time) : World :=
  {| clock := fun n => t + Z.of_nat n * 1000000;
     ticks := 0;
     entropy := 0;
     compared := 0 |}.

Definition w0 : World := world_at start.

Definition day : Duration := 24 * Hour.

(** The token issued to user 42 at [start]. *)
Definition token42 : string :=
  "HS256.trackit,1499996400,1505184000,42.s3cret2563764243350".

(** Hand-made tokens under the configured secret, each breaking one check
    when verified around [start]. *)
Definition sign_demo (m : SigningMethod) (c : jwtClaims) (key : bytes) : string :=
  fst (Token_SignedString (jwt_NewWithClaims m c) key).

Definition claims42 : jwtClaims :=
  {| Issuer := "trackit"; NotBefore := 1499996400; Expires := 1505184000;
     Subject := 42; Standard := tt |}.

Definition claims_wrong_issuer : jwtClaims :=
  {| Issuer := "someone"; NotBefore := 1499996400; Expires := 1505184000;
     Subject := 42; Standard := tt |}.

Definition claims_not_yet : jwtClaims :=
  {| Issuer := "trackit"; NotBefore := 1500000001; Expires := 1505184000;
     Subject := 42; Standard := tt |}.

Definition claims_expired : jwtClaims :=
  {| Issuer := "trackit"; NotBefore := 1499996400; Expires := 1500000000;
     Subject := 42; Standard := tt |}.

Definition user42 : user := {| id := 42; email := "dev@example.org" |}.

Definition token_wrong_issuer : string :=
  "HS256.someone,1499996400,1505184000,42.s3cret256977836506".
Definition token_not_yet : string :=
  "HS256.trackit,1500000001,1505184000,42.s3cret256446029850".
Definition token_expired : string :=
  "HS256.trackit,1499996400,1500000000,42.s3cret2561946669822".

(** The claims of [token42] under the secret "other", and without any
    signature under the algorithm "none". *)
Definition token_other_secret : string :=
  "HS256.trackit,1499996400,1505184000,42.other2563764243350".
Definition token_none : string :=
  "none.trackit,1499996400,1505184000,42.".

Definition decoded (alg : string) (c : jwtClaims) (signature : string) : Decoded :=
  {| dec_header := [("typ", "JWT"); ("alg", alg)];
     dec_claims := c;
     dec_signing := (alg ++ "." ++ encode_claims c)%string;
     dec_signature := signature |}.

Definition parsed (tokenString : string) (c : jwtClaims) (signature : string) : Token :=
  {| Raw := tokenString;
     Method := SigningMethodHS256;
     TokenHeader := [("typ", "JWT"); ("alg", "HS256")];
     TokenClaims := ClaimsJwt c;
     Signature := signature;
     Valid := true |}.

End Demo.

(** ** HMAC as [crypto/hmac] builds it

    [hmac.New(h, key)] hashes a key that is longer than the block of the
    hash, copies the key into two zeroed blocks, and xors one with 0x36 and
    the other with 0x5c; the sum is H(opad || H(ipad || message)).  The
    hash [H] and its block size [B] are parameters. *)
Module Hmac.

Definition xor_byte (a b : byte) : byte :=
  match Byte.of_N (N.lxor (Byte.to_N a) (Byte.to_N b)) with
  | Some c => c
  | None => x00
  end.

Section Construction.

Variable H : bytes -> bytes.
Variable B : nat.

Definition block_key (key : bytes) : bytes :=
  let key := if Nat.ltb B (List.length key) then H key else key in
  (key ++ repeat x00 (B - List.length key))%list.

Definition Sum (key message : bytes) : bytes :=
  let ipad := map (xor_byte x36) (block_key key) in
  let opad := map (xor_byte x5c) (block_key key) in
  H (opad ++ H (ipad ++ message))%list.

End Construction.

End Hmac.

(** ** The demo instance with HMAC as its MAC

    The same users, configuration and token format as [Demo]; the MAC is
    [Hmac.Sum] over a checksum standing for the hash, with the block sizes
    of SHA-256 (64 bytes) and of SHA-384 and SHA-512 (128 bytes). *)
Module DemoHmac.

Definition digest (h : HashAlg) (message : bytes) : bytes :=
  bytes_of_string (hash_suffix h ++ Demo.print_Z (Demo.checksum message))%string.

Definition BlockSize (h : HashAlg) : nat :=
  match h with
  | SHA256 => 64
  | SHA384 => 128
  | SHA512 => 128
  end.

Definition mac (h : HashAlg) (key message : bytes) : bytes :=
  Hmac.Sum (digest h) (BlockSize h) key message.

#[export] Instance packages : Packages := {|
  User := Demo.user;
  User_Id := Demo.id;
  User_zero := Demo.no_user;
  DB := list Demo.user;
  db_Db := Demo.table;
  GetUserWithId := Demo.lookup;
  config_LoadConfiguration := Demo.configuration;
  bcrypt_GenerateFromPassword := Demo.generate;
  bcrypt_CompareHashAndPassword := Demo.compare;
  StandardClaims := unit;
  StandardClaims_zero := tt;
  StandardClaims_Valid := fun _ _ => None;
  hmac_Sum := mac;
  EncodeSegment := string_of_bytes;
  DecodeSegment := fun s => inl (bytes_of_string s);
  other_Sign := fun _ _ _ => inr (errorString "key is invalid");
  other_Verify := fun _ _ _ _ => Some (errorString "key is of invalid type")
|}.

Definition encode_claims (c : jwtClaims) : string :=
  (Issuer c ++ "," ++ Demo.print_Z (NotBefore c) ++ "," ++ Demo.print_Z (Expires c)
   ++ "," ++ Demo.print_Z (Subject c))%string.

Definition decode_claims (s : string) : option jwtClaims :=
  match Demo.split_on "," s with
  | [iss; nbf; exp; sub] =>
      match Demo.parse_Z nbf, Demo.parse_Z exp, Demo.parse_Z sub with
      | Some nbf, Some exp, Some sub =>
          Some {| Issuer := iss; NotBefore := nbf; Expires := exp;
                  Subject := sub; Standard := tt |}
      | _, _, _ => None
      end
  | _ => None
  end.

Definition signing_string (h : Header) (c : Claims) : string + error :=
  match header_get h "alg", c with
  | Some alg, ClaimsJwt c => inl (alg ++ "." ++ encode_claims c)%string
  | _, _ => inr (errorString "json: unsupported value")
  end.

Definition decode_segments (tokenString : string) : Decoded + error :=
  match Demo.split_on "." tokenString with
  | [hseg; cseg; sseg] =>
      match decode_claims cseg with
      | Some c =>
          inl {| dec_header := [("typ", "JWT"); ("alg", hseg)];
                 dec_claims := c;
                 dec_signing := (hseg ++ "." ++ cseg)%string;
                 dec_signature := sseg |}
      | None => inr Demo.malformed
      end
  | _ => inr Demo.malformed
  end.

#[export] Instance codec : Codec := {|
  jwt_SigningString := signing_string;
  jwt_decodeSegments := decode_segments
|}.

Definition claims42 : jwtClaims :=
  {| Issuer := "trackit"; NotBefore := 1499996400; Expires := 1505184000;
     Subject := 42; Standard := tt |}.

(** The configured secret is "s3cret"; this one is a byte longer. *)
Definition longer_secret : bytes := (bytes_of_string "s3cret" ++ [x00])%list.

End DemoHmac.

(** * Properties *)

(** ** Clock arithmetic *)

Lemma Second_pos : 0 < Second.
Proof. reflexivity. Qed.

Lemma Unix_Add_seconds (t : Time) (n : Z) :
  Time_Unix (Time_Add t (n * Second)) = Time_Unix t + n.
Proof.
  unfold Time_Unix, Time_Add.
  apply Z.div_add. discriminate.
Qed.

Lemma Unix_minus_hour (t : Time) :
  Time_Unix (Time_Add t (-1 * Hour)) = Time_Unix t - 3600.
Proof.
  replace (-1 * Hour) with (-3600 * Second) by reflexivity.
  rewrite Unix_Add_seconds. lia.
Qed.

Lemma Unix_plus_60_days (t : Time) :
  Time_Unix (Time_Add t (60 * 24 * Hour)) = Time_Unix t + 5184000.
Proof.
  replace (60 * 24 * Hour) with (5184000 * Second) by reflexivity.
  apply Unix_Add_seconds.
Qed.

Lemma Unix_mono (t t' : Time) : t <= t' -> Time_Unix t <= Time_Unix t'.
Proof.
  intros Hle. unfold Time_Unix.
  apply Z.div_le_mono; [exact Second_pos | exact Hle].
Qed.

(** ** Signing methods *)

Lemma hmac_Equal_refl (a : bytes) : hmac_Equal a a = true.
Proof.
  induction a as [|x a IH]; simpl; [reflexivity|].
  rewrite IH, (Byte.byte_dec_lb (eq_refl x)). reflexivity.
Qed.

Lemma hmac_Equal_eq (a b : bytes) : hmac_Equal a b = true -> a = b.
Proof.
  revert b. induction a as [|x a IH]; intros [|y b]; simpl; try discriminate.
  - reflexivity.
  - intros H. apply andb_prop in H. destruct H as [Hxy Hab].
    apply Byte.byte_dec_bl in Hxy. apply IH in Hab. congruence.
Qed.

Lemma hmac_Equal_neq (a b : bytes) : a <> b -> hmac_Equal a b = false.
Proof.
  intros Hne. destruct (hmac_Equal a b) eqn:E; [|reflexivity].
  elim Hne. apply hmac_Equal_eq. exact E.
Qed.

Lemma GetSigningMethod_Alg (m : SigningMethod) : GetSigningMethod (Alg m) = Some m.
Proof. destruct m as [h|h|h|h|]; try destruct h; reflexivity. Qed.

Lemma GetSigningMethod_sound (alg : string) (m : SigningMethod) :
  GetSigningMethod alg = Some m -> Alg m = alg.
Proof.
  unfold GetSigningMethod. intros H.
  apply find_some in H. destruct H as [_ H].
  apply String.eqb_eq. exact H.
Qed.

Section AuthFacts.

Context {P : Packages} {C : Codec}.

(** ** The key function *)

Lemma getTokenSigningKey_HMAC (token : Token) (h : HashAlg) :
  Method token = SigningMethodHMAC h -> getTokenSigningKey token = inl jwtSecret.
Proof. intros Hm. unfold getTokenSigningKey. rewrite Hm. reflexivity. Qed.

Lemma getTokenSigningKey_other (token : Token) :
  as_SigningMethodHMAC (Method token) = None ->
  getTokenSigningKey token =
  inr (errorString ("Unexpected signing method: "
                    ++ fmt_v (header_get (TokenHeader token) "alg") ++ ".")%string).
Proof. intros Hm. unfold getTokenSigningKey. rewrite Hm. reflexivity. Qed.

(** C9: the algorithm check of the verifier accepts the whole HMAC family:
    a token whose method is HS256, HS384 or HS512 passes and receives the
    signing secret, although the issuer only ever uses HS256; the check
    returns an error exactly for the tokens whose signing method is not an
    HMAC one, and the error names the declared algorithm. *)
Theorem getTokenSigningKey_accepts_HMAC_family (token : Token) :
  (forall h, Method token = SigningMethodHMAC h ->
             getTokenSigningKey token = inl jwtSecret)
  /\ ((exists err, getTokenSigningKey token = inr err)
      <-> (forall h, Method token <> SigningMethodHMAC h))
  /\ ((forall h, Method token <> SigningMethodHMAC h) ->
      getTokenSigningKey token =
      inr (errorString ("Unexpected signing method: "
                        ++ fmt_v (header_get (TokenHeader token) "alg") ++ ".")%string))
  /\ (forall user w, exists claims,
        fst (generateToken user w)
        = Token_SignedString (jwt_NewWithClaims (SigningMethodHMAC SHA256) claims)
                             jwtSecret)
  /\ map as_SigningMethodHMAC
         [SigningMethodHS256; SigningMethodHS384; SigningMethodHS512]
     = [Some SHA256; Some SHA384; Some SHA512].
Proof.
  split; [exact (getTokenSigningKey_HMAC token)|].
  split; [|split; [|split; [|reflexivity]]].
  - split.
    + intros [err Herr] h Hm.
      rewrite (getTokenSigningKey_HMAC token h Hm) in Herr. discriminate.
    + intros Hno. eexists. apply getTokenSigningKey_other.
      destruct (Method token) as [h| | | |]; try reflexivity.
      elim (Hno h). reflexivity.
  - intros Hno. apply getTokenSigningKey_other.
    destruct (Method token) as [h| | | |]; try reflexivity.
    elim (Hno h). reflexivity.
  - intros user w. eexists. reflexivity.
Qed.

(** ** Issuing *)

Lemma generateToken_unfold (user : User) (w : World) :
  generateToken user w =
  (Token_SignedString
     (jwt_NewWithClaims SigningMethodHS256
        (mintedClaims user (clock w (ticks w)) (clock w (S (ticks w)))))
     jwtSecret,
   mkWorld (clock w) (S (S (ticks w))) (entropy w) (compared w)).
Proof. reflexivity. Qed.

(** C3: for every identity, [generateToken] signs claims whose issuer is the
    configured issuer, whose notBefore is the clock reading minus one hour,
    whose expiresAt is the clock reading plus sixty days (both in Unix
    seconds) and whose subject is the integer id of the identity; the clock
    is read once for each bound, and as long as it did not run backwards
    between the two readings, notBefore < expiresAt.  When both readings
    are the same mint time, the window is exactly
    [mint - 3600, mint + 5184000). *)
Theorem generateToken_claims (user : User) (w : World)
  (Hclock : clock w (ticks w) <= clock w (S (ticks w))) :
  let t1 := clock w (ticks w) in
  let t2 := clock w (S (ticks w)) in
  exists claims : jwtClaims,
    fst (generateToken user w)
    = Token_SignedString (jwt_NewWithClaims SigningMethodHS256 claims) jwtSecret
    /\ Issuer claims = jwtIssuer
    /\ NotBefore claims = Time_Unix t1 - 3600
    /\ Expires claims = Time_Unix t2 + 60 * 86400
    /\ Subject claims = User_Id user
    /\ Standard claims = StandardClaims_zero
    /\ NotBefore claims < Expires claims
    /\ (t1 = t2 -> Expires claims - NotBefore claims = 3600 + 60 * 86400).
Proof.
  intros t1 t2.
  exists (mintedClaims user t1 t2).
  rewrite generateToken_unfold. cbn [fst mintedClaims Issuer NotBefore Expires Subject Standard].
  rewrite Unix_minus_hour, Unix_plus_60_days.
  pose proof (Unix_mono t1 t2 Hclock) as Hmono.
  repeat split; try reflexivity.
  - lia.
  - intros ->. lia.
Qed.

(** ** The claims check *)

Lemma areClaimsValid_unfold (claims : jwtClaims) (w : World) :
  areClaimsValid claims w =
  (String.eqb (Issuer claims) jwtIssuer
   && (NotBefore claims <=? Time_Unix (clock w (ticks w)))
   && (Time_Unix (clock w (ticks w)) <? Expires claims),
   mkWorld (clock w) (S (ticks w)) (entropy w) (compared w)).
Proof. reflexivity. Qed.

Lemma areClaimsValid_true (claims : jwtClaims) (w : World) :
  fst (areClaimsValid claims w) = true <->
  Issuer claims = jwtIssuer
  /\ NotBefore claims <= Time_Unix (clock w (ticks w))
  /\ Time_Unix (clock w (ticks w)) < Expires claims.
Proof.
  rewrite areClaimsValid_unfold. cbn [fst].
  rewrite !andb_true_iff, String.eqb_eq, Z.leb_le, Z.ltb_lt.
  tauto.
Qed.

(** ** The parser, with [getTokenSigningKey] as its key function *)

(** What a successful parse returns. *)
Lemma ParseWithClaims_accepts (tokenString : string) (w w1 : World) (token : Token) :
  jwt_ParseWithClaims tokenString getTokenSigningKey w = (inl token, w1) ->
  exists (d : Decoded) (h : HashAlg),
    jwt_decodeSegments tokenString = inl d
    /\ Method token = SigningMethodHMAC h
    /\ TokenClaims token = ClaimsJwt (dec_claims d)
    /\ Valid token = true.
Proof.
  unfold jwt_ParseWithClaims.
  destruct (jwt_decodeSegments tokenString) as [d|err]; [|discriminate].
  destruct (header_get (dec_header d) "alg") as [alg|]; [|discriminate].
  destruct (GetSigningMethod alg) as [method|]; [|discriminate].
  unfold getTokenSigningKey. cbn [Method].
  destruct method as [h| | | |]; cbn [as_SigningMethodHMAC]; try discriminate.
  unfold bind, ret, time_Now. cbn [Method_Verify].
  destruct (DecodeSegment (dec_signature d)) as [sig|err]; unfold bind, ret, note_comparison.
  - match goal with |- context [N.eqb ?f 0] => destruct (N.eqb f 0) end; [|discriminate].
    intros H. injection H as Htok _. subst token.
    exists d, h. repeat split.
  - match goal with |- context [N.eqb ?f 0] => destruct (N.eqb f 0) end; [|discriminate].
    intros H. injection H as Htok _. subst token.
    exists d, h. repeat split.
Qed.

(** [testToken] once the parser has accepted the token. *)
Lemma testTokenWith_accepted (parse : string -> Keyfunc -> M (Token + error))
  (tokenString : string) (w w1 : World) (token : Token) (claims : jwtClaims) :
  parse tokenString getTokenSigningKey w = (inl token, w1) ->
  TokenClaims token = ClaimsJwt claims ->
  Valid token = true ->
  testTokenWith parse tokenString w =
  (if fst (areClaimsValid claims w1)
   then GetUserWithId db_Db (Subject claims)
   else (User_zero, Some (errors_New "Claims are invalid.")),
   snd (areClaimsValid claims w1)).
Proof.
  intros Hparse Hclaims Hvalid.
  unfold testTokenWith, bind. rewrite Hparse, Hclaims, Hvalid.
  destruct (areClaimsValid claims w1) as [[|] w2]; reflexivity.
Qed.

(** [testToken] when the parser returns an error. *)
Lemma testTokenWith_rejected (parse : string -> Keyfunc -> M (Token + error))
  (tokenString : string) (w w1 : World) (err : error) :
  parse tokenString getTokenSigningKey w = (inr err, w1) ->
  testTokenWith parse tokenString w = ((User_zero, Some err), w1).
Proof.
  intros Hparse. unfold testTokenWith, bind. rewrite Hparse. reflexivity.
Qed.

(** [testToken] when the claims of the parsed token cannot be read. *)
Lemma testTokenWith_unreadable (parse : string -> Keyfunc -> M (Token + error))
  (tokenString : string) (w w1 : World) (token : Token) :
  parse tokenString getTokenSigningKey w = (inl token, w1) ->
  Valid token = false \/ (forall claims, TokenClaims token <> ClaimsJwt claims) ->
  testTokenWith parse tokenString w =
  ((User_zero, Some (errors_New "Failed to read token.")), w1).
Proof.
  intros Hparse Hbad. unfold testTokenWith, bind. rewrite Hparse.
  destruct (TokenClaims token) as [claims|m] eqn:Hc; [|reflexivity].
  destruct (Valid token) eqn:Hv; [|reflexivity].
  destruct Hbad as [Hbad|Hbad]; [discriminate|].
  elim (Hbad claims). reflexivity.
Qed.

(** ** The verifier *)

(** C2: for every token that the parser accepts (decoded, HMAC method,
    signature verified), the verifier goes on to the identity lookup
    exactly when the issuer is the configured one, notBefore <= now and
    now < expiresAt, [now] being the clock reading taken by the claims
    check; otherwise it fails with the error "Claims are invalid.".  In
    particular the token is refused at the instant now = expiresAt, also
    with the right issuer, and accepted at now = notBefore. *)
Theorem testToken_claims_window (tokenString : string) (w w1 : World) (token : Token)
  (Hparse : jwt_ParseWithClaims tokenString getTokenSigningKey w = (inl token, w1)) :
  let now := Time_Unix (clock w1 (ticks w1)) in
  exists claims : jwtClaims,
    TokenClaims token = ClaimsJwt claims
    /\ (fst (areClaimsValid claims w1) = true <->
        Issuer claims = jwtIssuer /\ NotBefore claims <= now /\ now < Expires claims)
    /\ (Issuer claims = jwtIssuer /\ NotBefore claims <= now /\ now < Expires claims ->
        fst (testToken tokenString w) = GetUserWithId db_Db (Subject claims))
    /\ (~ (Issuer claims = jwtIssuer /\ NotBefore claims <= now /\ now < Expires claims) ->
        fst (testToken tokenString w)
        = (User_zero, Some (errors_New "Claims are invalid.")))
    /\ (now = Expires claims ->
        fst (testToken tokenString w)
        = (User_zero, Some (errors_New "Claims are invalid.")))
    /\ (Issuer claims = jwtIssuer -> now = NotBefore claims -> now < Expires claims ->
        fst (testToken tokenString w) = GetUserWithId db_Db (Subject claims)).
Proof.
  intros now.
  destruct (ParseWithClaims_accepts _ _ _ _ Hparse) as (d & h & _ & _ & Hclaims & Hvalid).
  exists (dec_claims d).
  pose proof (areClaimsValid_true (dec_claims d) w1) as Hiff. fold now in Hiff.
  assert (Hyes : Issuer (dec_claims d) = jwtIssuer /\ NotBefore (dec_claims d) <= now
                 /\ now < Expires (dec_claims d) ->
                 fst (testToken tokenString w)
                 = GetUserWithId db_Db (Subject (dec_claims d))).
  { intros Hok. apply Hiff in Hok. unfold testToken.
    rewrite (testTokenWith_accepted _ _ _ _ _ _ Hparse Hclaims Hvalid).
    cbn [fst]. rewrite Hok. reflexivity. }
  assert (Hno : ~ (Issuer (dec_claims d) = jwtIssuer /\ NotBefore (dec_claims d) <= now
                   /\ now < Expires (dec_claims d)) ->
                fst (testToken tokenString w)
                = (User_zero, Some (errors_New "Claims are invalid."))).
  { intros Hbad. unfold testToken.
    rewrite (testTokenWith_accepted _ _ _ _ _ _ Hparse Hclaims Hvalid).
    cbn [fst]. destruct (fst (areClaimsValid (dec_claims d) w1)) eqn:E; [|reflexivity].
    elim Hbad. apply Hiff. reflexivity. }
  split; [exact Hclaims|]. split; [exact Hiff|].
  split; [exact Hyes|]. split; [exact Hno|]. split.
  - intros Hexp. apply Hno. intros (_ & _ & Hlt). lia.
  - intros Hiss Hnbf Hlt. apply Hyes. repeat split; [assumption|lia|assumption].
Qed.

(** C8, as the code has it: the three causes of a failed claims check are
    not told apart.  Whatever parser is used, two accepted tokens whose
    claims both fail the check, each for any cause and at any time, get the
    same result: the zero User and the one error "Claims are invalid.". *)
Theorem testToken_invalid_claims_collapse
  (parse : string -> Keyfunc -> M (Token + error))
  (s1 s2 : string) (w1 w2 w1' w2' : World) (t1 t2 : Token) (c1 c2 : jwtClaims)
  (Hparse1 : parse s1 getTokenSigningKey w1 = (inl t1, w1'))
  (Hparse2 : parse s2 getTokenSigningKey w2 = (inl t2, w2'))
  (Hclaims1 : TokenClaims t1 = ClaimsJwt c1) (Hvalid1 : Valid t1 = true)
  (Hclaims2 : TokenClaims t2 = ClaimsJwt c2) (Hvalid2 : Valid t2 = true)
  (Hbad1 : spec_failure_causes c1 (Time_Unix (clock w1' (ticks w1'))) <> [])
  (Hbad2 : spec_failure_causes c2 (Time_Unix (clock w2' (ticks w2'))) <> []) :
  fst (testTokenWith parse s1 w1) = (User_zero, Some (errors_New "Claims are invalid."))
  /\ fst (testTokenWith parse s2 w2) = fst (testTokenWith parse s1 w1).
Proof.
  assert (Hcollapse : forall c w, spec_failure_causes c (Time_Unix (clock w (ticks w))) <> [] ->
                                 fst (areClaimsValid c w) = false).
  { intros c w Hbad. rewrite areClaimsValid_unfold. cbn [fst].
    unfold spec_failure_causes in Hbad.
    destruct (String.eqb (Issuer c) jwtIssuer); [|reflexivity].
    destruct (NotBefore c <=? Time_Unix (clock w (ticks w))); [|reflexivity].
    destruct (Time_Unix (clock w (ticks w)) <? Expires c); [|reflexivity].
    elim Hbad. reflexivity. }
  rewrite (testTokenWith_accepted _ _ _ _ _ _ Hparse1 Hclaims1 Hvalid1).
  rewrite (testTokenWith_accepted _ _ _ _ _ _ Hparse2 Hclaims2 Hvalid2).
  cbn [fst]. rewrite (Hcollapse _ _ Hbad1), (Hcollapse _ _ Hbad2).
  split; reflexivity.
Qed.

(** C10: whatever the parser returns, [testToken] either returns the zero
    User together with a non-nil error, or returns exactly what the
    identity lookup returned for the subject of accepted, valid claims.
    The first case covers every failure before the lookup: an error of the
    parser (malformed token, unexpected algorithm, invalid signature) is
    passed on unchanged, unreadable claims give "Failed to read token.",
    invalid claims give "Claims are invalid.". *)
Theorem testToken_zero_user_before_lookup
  (parse : string -> Keyfunc -> M (Token + error)) (tokenString : string) (w : World) :
  ((exists err, fst (testTokenWith parse tokenString w) = (User_zero, Some err))
   \/ (exists token claims w1,
         parse tokenString getTokenSigningKey w = (inl token, w1)
         /\ TokenClaims token = ClaimsJwt claims
         /\ Valid token = true
         /\ fst (areClaimsValid claims w1) = true
         /\ fst (testTokenWith parse tokenString w)
            = GetUserWithId db_Db (Subject claims)))
  /\ (forall err w1,
        parse tokenString getTokenSigningKey w = (inr err, w1) ->
        fst (testTokenWith parse tokenString w) = (User_zero, Some err))
  /\ (forall token w1,
        parse tokenString getTokenSigningKey w = (inl token, w1) ->
        Valid token = false \/ (forall claims, TokenClaims token <> ClaimsJwt claims) ->
        fst (testTokenWith parse tokenString w)
        = (User_zero, Some (errors_New "Failed to read token.")))
  /\ (forall token claims w1,
        parse tokenString getTokenSigningKey w = (inl token, w1) ->
        TokenClaims token = ClaimsJwt claims ->
        Valid token = true ->
        fst (areClaimsValid claims w1) = false ->
        fst (testTokenWith parse tokenString w)
        = (User_zero, Some (errors_New "Claims are invalid.")))
  /\ (fst (testToken tokenString w) = fst (testTokenWith jwt_ParseWithClaims tokenString w)).
Proof.
  split; [|split; [|split; [|split; [|reflexivity]]]].
  - destruct (parse tokenString getTokenSigningKey w) as [[token|err] w1] eqn:Hparse.
    + destruct (TokenClaims token) as [claims|m] eqn:Hclaims.
      * destruct (Valid token) eqn:Hvalid.
        -- rewrite (testTokenWith_accepted _ _ _ _ _ _ Hparse Hclaims Hvalid). cbn [fst].
           destruct (fst (areClaimsValid claims w1)) eqn:Hok.
           ++ right. exists token, claims, w1. repeat split; assumption.
           ++ left. eexists. reflexivity.
        -- left. eexists.
           rewrite (testTokenWith_unreadable _ _ _ _ _ Hparse); [reflexivity|].
           left. exact Hvalid.
      * left. eexists.
        rewrite (testTokenWith_unreadable _ _ _ _ _ Hparse); [reflexivity|].
        right. intros claims. rewrite Hclaims. discriminate.
    + left. exists err. rewrite (testTokenWith_rejected _ _ _ _ _ Hparse). reflexivity.
  - intros err w1 Hparse. rewrite (testTokenWith_rejected _ _ _ _ _ Hparse). reflexivity.
  - intros token w1 Hparse Hbad.
    rewrite (testTokenWith_unreadable _ _ _ _ _ Hparse Hbad). reflexivity.
  - intros token claims w1 Hparse Hclaims Hvalid Hno.
    rewrite (testTokenWith_accepted _ _ _ _ _ _ Hparse Hclaims Hvalid). cbn [fst].
    rewrite Hno. reflexivity.
Qed.

(** ** The parser on tokens that decode *)

(** A decoded token that declares an HMAC algorithm reaches the signature
    comparison, with the configured secret as key. *)
Lemma ParseWithClaims_HMAC (tokenString : string) (w : World) (d : Decoded)
  (h : HashAlg) (sig : bytes) :
  jwt_decodeSegments tokenString = inl d ->
  header_get (dec_header d) "alg" = Some (Alg (SigningMethodHMAC h)) ->
  DecodeSegment (dec_signature d) = inl sig ->
  jwt_ParseWithClaims tokenString getTokenSigningKey w =
  (let vErr :=
     signature_vErr
       (claims_vErr (StandardClaims_Valid (Standard (dec_claims d))
                                          (Time_Unix (clock w (ticks w)))))
       (if hmac_Equal sig (hmac_Sum h jwtSecret (bytes_of_string (dec_signing d)))
        then None else Some ErrSignatureInvalid) in
   if N.eqb (snd vErr) 0
   then inl {| Raw := tokenString;
               Method := SigningMethodHMAC h;
               TokenHeader := dec_header d;
               TokenClaims := ClaimsJwt (dec_claims d);
               Signature := dec_signature d;
               Valid := true |}
   else inr (ValidationError (fst vErr) (snd vErr)),
   after_verification w).
Proof.
  intros Hdec Halg Hseg.
  unfold jwt_ParseWithClaims.
  rewrite Hdec, Halg, GetSigningMethod_Alg.
  unfold getTokenSigningKey. cbn [Method as_SigningMethodHMAC].
  unfold bind, time_Now. cbn [Method_Verify TokenClaims Claims_Valid].
  rewrite Hseg. unfold bind, note_comparison, ret, after_verification.
  cbn [clock ticks entropy compared].
  match goal with |- context [N.eqb ?f 0] => destruct (N.eqb f 0) end; reflexivity.
Qed.

(** C4: a token that decodes and declares an algorithm outside the HMAC
    family (among them "none") is refused with an error of the
    "unverifiable" kind, whatever its signature segment holds, and the
    world is left as it was: the clock was not read and no signature was
    compared.  For an algorithm jwt-go knows, the inner error is the one of
    [getTokenSigningKey], "Unexpected signing method: <alg>."; for an
    algorithm it does not know, the parser itself refuses the token. *)
Theorem testToken_unexpected_algorithm (tokenString : string) (w : World)
  (d : Decoded) (alg : string)
  (Hdec : jwt_decodeSegments tokenString = inl d)
  (Halg : header_get (dec_header d) "alg" = Some alg)
  (Hother : forall h, alg <> Alg (SigningMethodHMAC h)) :
  exists inner : option error,
    testToken tokenString w
    = ((User_zero, Some (ValidationError inner ValidationErrorUnverifiable)), w)
    /\ compared (snd (testToken tokenString w)) = compared w
    /\ (forall m, GetSigningMethod alg = Some m ->
        inner = Some (errorString ("Unexpected signing method: " ++ alg ++ ".")%string))
    /\ (GetSigningMethod alg = None -> inner = None)
    /\ GetSigningMethod "none" = Some signingMethodNone.
Proof.
  unfold testToken.
  destruct (GetSigningMethod alg) as [m|] eqn:Hm.
  - exists (Some (errorString ("Unexpected signing method: " ++ alg ++ ".")%string)).
    assert (Hparse : jwt_ParseWithClaims tokenString getTokenSigningKey w
                     = (inr (ValidationError
                               (Some (errorString
                                        ("Unexpected signing method: " ++ alg ++ ".")%string))
                               ValidationErrorUnverifiable), w)).
    { unfold jwt_ParseWithClaims. rewrite Hdec, Halg, Hm.
      rewrite getTokenSigningKey_other.
      - cbn [TokenHeader]. rewrite Halg. reflexivity.
      - cbn [Method]. apply GetSigningMethod_sound in Hm.
        destruct m as [h| | | |]; try reflexivity.
        elim (Hother h). symmetry. exact Hm. }
    rewrite (testTokenWith_rejected _ _ _ _ _ Hparse). cbn [snd].
    repeat split; try reflexivity. discriminate.
  - exists None.
    assert (Hparse : jwt_ParseWithClaims tokenString getTokenSigningKey w
                     = (inr (ValidationError None ValidationErrorUnverifiable), w)).
    { unfold jwt_ParseWithClaims. rewrite Hdec, Halg, Hm. reflexivity. }
    rewrite (testTokenWith_rejected _ _ _ _ _ Hparse). cbn [snd].
    repeat split; try reflexivity. discriminate.
Qed.

(** ** Issue, then verify *)

(** C1: verifying a freshly issued token succeeds and resolves to the
    identity it was issued for.  [generateToken] returns the token for
    [user]; provided that the codec reads the token back into the header,
    claims, signing string and signature it was made of, that empty
    registered claims are valid, that the lookup returns [user] for its id,
    and that the clock, between issuing and verifying, neither ran
    backwards nor advanced by sixty days (an immediate verification),
    [testToken] returns [user] and no error. *)
Theorem testToken_generateToken (user : User) (w : World) (sstr : string) :
  let claims := mintedClaims user (clock w (ticks w)) (clock w (S (ticks w))) in
  let mac := hmac_Sum SHA256 jwtSecret (bytes_of_string sstr) in
  let token := (sstr ++ "." ++ EncodeSegment mac)%string in
  forall
    (Hsstr : jwt_SigningString [("typ", "JWT"); ("alg", "HS256")] (ClaimsJwt claims)
             = inl sstr)
    (Hdec : jwt_decodeSegments token
            = inl {| dec_header := [("typ", "JWT"); ("alg", "HS256")];
                     dec_claims := claims;
                     dec_signing := sstr;
                     dec_signature := EncodeSegment mac |})
    (Hseg : DecodeSegment (EncodeSegment mac) = inl mac)
    (Hstd : StandardClaims_Valid StandardClaims_zero
              (Time_Unix (clock w (S (S (ticks w))))) = None)
    (Hlookup : GetUserWithId db_Db (User_Id user) = (user, None))
    (Hforward : clock w (ticks w) <= clock w (S (S (S (ticks w)))))
    (Hsoon : clock w (S (S (S (ticks w)))) + Second
             <= clock w (S (ticks w)) + 60 * 24 * Hour),
  exists w1 w2 : World,
    generateToken user w = ((token, None), w1)
    /\ testToken token w1 = ((user, None), w2)
    /\ User_Id (fst (fst (testToken token w1))) = User_Id user.
Proof.
  intros claims mac token Hsstr Hdec Hseg Hstd Hlookup Hforward Hsoon.
  set (w1 := mkWorld (clock w) (S (S (ticks w))) (entropy w) (compared w)).
  assert (Hgen : generateToken user w = ((token, None), w1)).
  { rewrite generateToken_unfold. fold claims. fold w1.
    unfold Token_SignedString, jwt_NewWithClaims.
    cbn [TokenClaims TokenHeader Method]. cbn [Alg SigningMethodHS256 hash_suffix].
    change ("HS" ++ "256")%string with "HS256".
    rewrite Hsstr. reflexivity. }
  assert (Hparse : jwt_ParseWithClaims token getTokenSigningKey w1
                   = (inl {| Raw := token;
                             Method := SigningMethodHMAC SHA256;
                             TokenHeader := [("typ", "JWT"); ("alg", "HS256")];
                             TokenClaims := ClaimsJwt claims;
                             Signature := EncodeSegment mac;
                             Valid := true |},
                      after_verification w1)).
  { rewrite (ParseWithClaims_HMAC token w1 _ SHA256 mac Hdec eq_refl Hseg).
    cbn [dec_claims dec_signing dec_header dec_signature].
    change (Standard claims) with StandardClaims_zero.
    change (clock w1 (ticks w1)) with (clock w (S (S (ticks w)))).
    rewrite Hstd. fold mac. rewrite hmac_Equal_refl. reflexivity. }
  assert (Hvalid : fst (areClaimsValid claims (after_verification w1)) = true).
  { apply areClaimsValid_true.
    change (clock (after_verification w1) (ticks (after_verification w1)))
      with (clock w (S (S (S (ticks w))))).
    unfold claims, mintedClaims. cbn [Issuer NotBefore Expires].
    rewrite Unix_minus_hour, Unix_plus_60_days.
    pose proof (Unix_mono _ _ Hforward) as H1.
    pose proof (Unix_mono _ _ Hsoon) as H2.
    replace (60 * 24 * Hour) with (5184000 * Second) in H2 by reflexivity.
    replace (clock w (S (S (S (ticks w)))) + Second)
      with (Time_Add (clock w (S (S (S (ticks w))))) (1 * Second)) in H2
      by (unfold Time_Add; lia).
    change (clock w (S (ticks w)) + 5184000 * Second)
      with (Time_Add (clock w (S (ticks w))) (5184000 * Second)) in H2.
    rewrite !Unix_Add_seconds in H2.
    repeat split; [lia | lia]. }
  assert (Htest : testToken token w1
                  = ((user, None), snd (areClaimsValid claims (after_verification w1)))).
  { unfold testToken.
    rewrite (testTokenWith_accepted _ _ _ _ _ claims Hparse eq_refl eq_refl).
    rewrite Hvalid. unfold claims at 1, mintedClaims. cbn [Subject].
    rewrite Hlookup. reflexivity. }
  exists w1, (snd (areClaimsValid claims (after_verification w1))).
  split; [exact Hgen|]. split; [exact Htest|].
  rewrite Htest. reflexivity.
Qed.

End AuthFacts.

(** ** Passwords

    Both password functions hand their arguments to bcrypt unchanged: the
    conversions between strings and byte slices lose nothing, and
    [passwordMatchesHash] passes the hash first and the password second, as
    [bcrypt.CompareHashAndPassword] expects.  What bcrypt then answers is
    not decided by this file. *)
Section PasswordFacts.

Context {P : Packages}.

Lemma bytes_of_string_of_bytes (b : bytes) : bytes_of_string (string_of_bytes b) = b.
Proof. apply list_byte_of_string_of_list_byte. Qed.

Lemma string_of_bytes_of_string (s : string) : string_of_bytes (bytes_of_string s) = s.
Proof. apply string_of_list_byte_of_string. Qed.

Lemma getPasswordHash_forwards (password : string) (w : World) :
  getPasswordHash password w =
  (let r := bcrypt_GenerateFromPassword (bytes_of_string password) bCryptCost w in
   ((string_of_bytes (fst (fst r)), snd (fst r)), snd r)).
Proof.
  unfold getPasswordHash, bind.
  destruct (bcrypt_GenerateFromPassword (bytes_of_string password) bCryptCost w)
    as [[hash err] w1].
  reflexivity.
Qed.

Lemma passwordMatchesHash_forwards (password : string) (hash : bytes) :
  passwordMatchesHash password (string_of_bytes hash)
  = bcrypt_CompareHashAndPassword hash (bytes_of_string password).
Proof.
  unfold passwordMatchesHash. rewrite bytes_of_string_of_bytes. reflexivity.
Qed.

End PasswordFacts.

(** ** The properties on the demo instance *)

Module DemoFacts.
Import Demo.

Example sign_demo_tokens :
  map (fun c => sign_demo SigningMethodHS256 c jwtSecret)
      [claims42; claims_wrong_issuer; claims_not_yet; claims_expired]
  = [token42; token_wrong_issuer; token_not_yet; token_expired]
  /\ sign_demo SigningMethodHS256 claims42 (bytes_of_string "other") = token_other_secret.
Proof. split; vm_compute; reflexivity. Qed.

(** The verifier accepts a token of user 42 signed under HS384, which the
    issuer never produces. *)
Example testToken_accepts_HS384 :
  sign_demo SigningMethodHS384 claims42 jwtSecret
  = "HS384.trackit,1499996400,1505184000,42.s3cret384250067706"
  /\ fst (testToken "HS384.trackit,1499996400,1505184000,42.s3cret384250067706" w0)
     = (user42, None).
Proof. split; reflexivity. Qed.

Lemma generateToken_claims_witness :
  clock w0 (ticks w0) <= clock w0 (S (ticks w0))
  /\ exists claims : jwtClaims,
       fst (generateToken user42 w0)
       = Token_SignedString (jwt_NewWithClaims SigningMethodHS256 claims) jwtSecret
       /\ Issuer claims = jwtIssuer
       /\ NotBefore claims = Time_Unix (clock w0 (ticks w0)) - 3600
       /\ Expires claims = Time_Unix (clock w0 (S (ticks w0))) + 60 * 86400
       /\ Subject claims = User_Id user42
       /\ Standard claims = StandardClaims_zero
       /\ NotBefore claims < Expires claims
       /\ (clock w0 (ticks w0) = clock w0 (S (ticks w0)) ->
           Expires claims - NotBefore claims = 3600 + 60 * 86400).
Proof.
  assert (Hclock : clock w0 (ticks w0) <= clock w0 (S (ticks w0)))
    by (vm_compute; discriminate).
  split; [exact Hclock|].
  exact (generateToken_claims user42 w0 Hclock).
Defined.

Lemma testToken_generateToken_witness :
  exists w1 w2 : World,
    generateToken user42 w0 = ((token42, None), w1)
    /\ testToken token42 w1 = ((user42, None), w2)
    /\ User_Id (fst (fst (testToken token42 w1))) = User_Id user42.
Proof.
  refine (testToken_generateToken user42 w0 "HS256.trackit,1499996400,1505184000,42"
            _ _ _ _ _ _ _).
  - reflexivity.
  - reflexivity.
  - reflexivity.
  - reflexivity.
  - reflexivity.
  - vm_compute; discriminate.
  - vm_compute; discriminate.
Defined.

(** The token of user 42, verified at [start]: accepted, and the claims
    check reads the clock at Unix time 1500000000. *)
Lemma testToken_claims_window_witness :
  jwt_ParseWithClaims token42 getTokenSigningKey w0
  = (inl (parsed token42 claims42 "s3cret2563764243350"), after_verification w0)
  /\ let now := Time_Unix (clock (after_verification w0) (ticks (after_verification w0))) in
     exists claims : jwtClaims,
       TokenClaims (parsed token42 claims42 "s3cret2563764243350") = ClaimsJwt claims
       /\ (fst (areClaimsValid claims (after_verification w0)) = true <->
           Issuer claims = jwtIssuer /\ NotBefore claims <= now /\ now < Expires claims)
       /\ (Issuer claims = jwtIssuer /\ NotBefore claims <= now /\ now < Expires claims ->
           fst (testToken token42 w0) = GetUserWithId db_Db (Subject claims))
       /\ (~ (Issuer claims = jwtIssuer /\ NotBefore claims <= now /\ now < Expires claims) ->
           fst (testToken token42 w0)
           = (User_zero, Some (errors_New "Claims are invalid.")))
       /\ (now = Expires claims ->
           fst (testToken token42 w0)
           = (User_zero, Some (errors_New "Claims are invalid.")))
       /\ (Issuer claims = jwtIssuer -> now = NotBefore claims -> now < Expires claims ->
           fst (testToken token42 w0) = GetUserWithId db_Db (Subject claims)).
Proof.
  assert (Hparse : jwt_ParseWithClaims token42 getTokenSigningKey w0
                   = (inl (parsed token42 claims42 "s3cret2563764243350"),
                      after_verification w0)) by reflexivity.
  split; [exact Hparse|].
  exact (testToken_claims_window token42 w0 (after_verification w0)
           (parsed token42 claims42 "s3cret2563764243350") Hparse).
Defined.

Lemma testToken_unexpected_algorithm_witness :
  exists inner : option error,
    testToken token_none w0
    = ((User_zero, Some (ValidationError inner ValidationErrorUnverifiable)), w0)
    /\ compared (snd (testToken token_none w0)) = compared w0
    /\ (forall m, GetSigningMethod "none" = Some m ->
        inner = Some (errorString "Unexpected signing method: none."))
    /\ (GetSigningMethod "none" = None -> inner = None)
    /\ GetSigningMethod "none" = Some signingMethodNone.
Proof.
  refine (testToken_unexpected_algorithm token_none w0
            (decoded "none" claims42 "") "none" _ _ _).
  - reflexivity.
  - reflexivity.
  - intros [| |]; discriminate.
Defined.

(** A token of the wrong issuer and an expired token, both correctly
    signed, verified at [start]. *)
Lemma testToken_invalid_claims_collapse_witness :
  fst (testTokenWith jwt_ParseWithClaims token_wrong_issuer w0)
  = (User_zero, Some (errors_New "Claims are invalid."))
  /\ fst (testTokenWith jwt_ParseWithClaims token_expired w0)
     = fst (testTokenWith jwt_ParseWithClaims token_wrong_issuer w0).
Proof.
  refine (testToken_invalid_claims_collapse jwt_ParseWithClaims
            token_wrong_issuer token_expired w0 w0
            (after_verification w0) (after_verification w0)
            (parsed token_wrong_issuer claims_wrong_issuer "s3cret256977836506")
            (parsed token_expired claims_expired "s3cret2561946669822")
            claims_wrong_issuer claims_expired _ _ _ _ _ _ _ _).
  - reflexivity.
  - reflexivity.
  - reflexivity.
  - reflexivity.
  - reflexivity.
  - reflexivity.
  - discriminate.
  - discriminate.
Defined.

(** C8 as stated fails: three correctly signed tokens, verified at [start],
    whose claims fail for the wrong issuer only, for a notBefore in the
    future only, and for being expired only, get one and the same result
    from [testToken]; nothing in it tells the causes apart. *)
Lemma testToken_failure_causes_indistinguishable :
  let now := Time_Unix (clock (after_verification w0) (ticks (after_verification w0))) in
  let r_issuer := fst (testToken token_wrong_issuer w0) in
  let r_not_yet := fst (testToken token_not_yet w0) in
  let r_expired := fst (testToken token_expired w0) in
  map (fun s => fst (jwt_ParseWithClaims s getTokenSigningKey w0))
      [token_wrong_issuer; token_not_yet; token_expired]
  = [inl (parsed token_wrong_issuer claims_wrong_issuer "s3cret256977836506");
     inl (parsed token_not_yet claims_not_yet "s3cret256446029850");
     inl (parsed token_expired claims_expired "s3cret2561946669822")]
  /\ spec_failure_causes claims_wrong_issuer now = [IssuerMismatch]
  /\ spec_failure_causes claims_not_yet now = [NotYetValid]
  /\ spec_failure_causes claims_expired now = [Expired]
  /\ r_issuer = (User_zero, Some (errorString "Claims are invalid."))
  /\ r_not_yet = r_issuer
  /\ r_expired = r_issuer
  /\ ~ (r_issuer <> r_not_yet /\ r_not_yet <> r_expired /\ r_issuer <> r_expired).
Proof.
  cbv zeta.
  repeat (split; [reflexivity|]).
  intros (H & _ & _). apply H. reflexivity.
Defined.

End DemoFacts.

(** * Further properties of the verifier and the issuer *)

Section VerifierFacts.

Context {P : Packages} {C : Codec}.

Lemma signature_flag_set (v : option error * N) (err : error) :
  N.eqb (snd (signature_vErr v (Some err))) 0 = false.
Proof.
  apply N.eqb_neq. cbn [signature_vErr snd]. intros Hz.
  apply N.lor_eq_0_iff in Hz. destruct Hz as [_ Hz]. discriminate Hz.
Qed.

(** What the world looks like once [testToken] has gone through the parser
    and the claims check. *)
Lemma areClaimsValid_world (claims : jwtClaims) (w : World) :
  snd (areClaimsValid claims (after_verification w))
  = mkWorld (clock w) (S (S (ticks w))) (entropy w) (S (compared w)).
Proof. reflexivity. Qed.

(** The parser accepts only tokens that decode, declare an HMAC algorithm,
    and carry the MAC of their signing string under the configured secret. *)
Lemma ParseWithClaims_accepted_signed (tokenString : string) (w w1 : World)
  (token : Token) :
  jwt_ParseWithClaims tokenString getTokenSigningKey w = (inl token, w1) ->
  exists (d : Decoded) (h : HashAlg),
    jwt_decodeSegments tokenString = inl d
    /\ header_get (dec_header d) "alg" = Some (Alg (SigningMethodHMAC h))
    /\ DecodeSegment (dec_signature d)
       = inl (hmac_Sum h jwtSecret (bytes_of_string (dec_signing d)))
    /\ snd (claims_vErr (StandardClaims_Valid (Standard (dec_claims d))
                                              (Time_Unix (clock w (ticks w))))) = 0%N
    /\ TokenClaims token = ClaimsJwt (dec_claims d)
    /\ Valid token = true
    /\ w1 = after_verification w.
Proof.
  unfold jwt_ParseWithClaims.
  destruct (jwt_decodeSegments tokenString) as [d|err]; [|discriminate].
  destruct (header_get (dec_header d) "alg") as [alg|] eqn:Halg; [|discriminate].
  destruct (GetSigningMethod alg) as [method|] eqn:Hm; [|discriminate].
  apply GetSigningMethod_sound in Hm.
  unfold getTokenSigningKey. cbn [Method].
  destruct method as [h| | | |]; cbn [as_SigningMethodHMAC]; try discriminate.
  unfold bind, time_Now. cbn [Method_Verify TokenClaims Claims_Valid].
  destruct (DecodeSegment (dec_signature d)) as [sig|err] eqn:Hseg.
  - unfold bind, note_comparison, ret. cbn [clock ticks entropy compared].
    destruct (hmac_Equal sig (hmac_Sum h jwtSecret (bytes_of_string (dec_signing d))))
      eqn:Heq.
    + cbn [signature_vErr].
      destruct (N.eqb _ 0) eqn:Hflags; [|discriminate].
      intros H. injection H as Htok Hw. subst token w1.
      exists d, h. apply hmac_Equal_eq in Heq. subst sig.
      apply N.eqb_eq in Hflags. subst alg.
      repeat split; assumption || reflexivity.
    + rewrite signature_flag_set. discriminate.
  - unfold ret. rewrite signature_flag_set. discriminate.
Qed.

(** The outcome of [testToken] on a token that decodes, declares an HMAC
    algorithm and has a decodable signature segment. *)
Lemma testToken_HMAC_outcome (tokenString : string) (w : World) (d : Decoded)
  (h : HashAlg) (sig : bytes) :
  jwt_decodeSegments tokenString = inl d ->
  header_get (dec_header d) "alg" = Some (Alg (SigningMethodHMAC h)) ->
  DecodeSegment (dec_signature d) = inl sig ->
  testToken tokenString w =
  (let vErr :=
     signature_vErr
       (claims_vErr (StandardClaims_Valid (Standard (dec_claims d))
                                          (Time_Unix (clock w (ticks w)))))
       (if hmac_Equal sig (hmac_Sum h jwtSecret (bytes_of_string (dec_signing d)))
        then None else Some ErrSignatureInvalid) in
   if N.eqb (snd vErr) 0
   then (if fst (areClaimsValid (dec_claims d) (after_verification w))
         then GetUserWithId db_Db (Subject (dec_claims d))
         else (User_zero, Some (errors_New "Claims are invalid.")),
         snd (areClaimsValid (dec_claims d) (after_verification w)))
   else ((User_zero, Some (ValidationError (fst vErr) (snd vErr))),
         after_verification w)).
Proof.
  intros Hdec Halg Hseg.
  pose proof (ParseWithClaims_HMAC _ w _ _ _ Hdec Halg Hseg) as Hparse.
  cbv zeta in *. unfold testToken.
  destruct (N.eqb _ 0).
  - apply (testTokenWith_accepted _ _ _ _ _ _ Hparse); reflexivity.
  - apply (testTokenWith_rejected _ _ _ _ _ Hparse).
Qed.

(** X1: [testToken] never authenticates a token it did not check.  When it
    returns a user and no error, the token string decodes, declares an
    algorithm of the HMAC family, its signature segment is the MAC of its
    signing string under the configured secret, its issuer is the
    configured one, the second clock reading of the verification lies in
    [notBefore, expiresAt), and the user and the nil error are what the
    lookup returned for the subject; the verification read the clock twice
    and compared one signature. *)
Theorem testToken_success_inversion (tokenString : string) (w w' : World)
  (user : User)
  (Hok : testToken tokenString w = ((user, None), w')) :
  exists (d : Decoded) (h : HashAlg),
    jwt_decodeSegments tokenString = inl d
    /\ header_get (dec_header d) "alg" = Some (Alg (SigningMethodHMAC h))
    /\ DecodeSegment (dec_signature d)
       = inl (hmac_Sum h jwtSecret (bytes_of_string (dec_signing d)))
    /\ Issuer (dec_claims d) = jwtIssuer
    /\ NotBefore (dec_claims d) <= Time_Unix (clock w (S (ticks w)))
    /\ Time_Unix (clock w (S (ticks w))) < Expires (dec_claims d)
    /\ GetUserWithId db_Db (Subject (dec_claims d)) = (user, None)
    /\ w' = mkWorld (clock w) (S (S (ticks w))) (entropy w) (S (compared w)).
Proof.
  unfold testToken in Hok.
  destruct (jwt_ParseWithClaims tokenString getTokenSigningKey w)
    as [[token|err] w1] eqn:Hparse.
  - destruct (ParseWithClaims_accepted_signed _ _ _ _ Hparse)
      as (d & h & Hdec & Halg & Hseg & _ & Hclaims & Hvalid & Hw1).
    subst w1.
    rewrite (testTokenWith_accepted _ _ _ _ _ _ Hparse Hclaims Hvalid) in Hok.
    destruct (fst (areClaimsValid (dec_claims d) (after_verification w))) eqn:Hcheck.
    + apply areClaimsValid_true in Hcheck. destruct Hcheck as (Hiss & Hnbf & Hexp).
      rewrite areClaimsValid_world in Hok.
      injection Hok as Hlookup Hw'.
      exists d, h.
      split; [exact Hdec|]. split; [exact Halg|]. split; [exact Hseg|].
      split; [exact Hiss|]. split; [exact Hnbf|]. split; [exact Hexp|].
      split; [exact Hlookup|]. symmetry. exact Hw'.
    + discriminate Hok.
  - rewrite (testTokenWith_rejected _ _ _ _ _ Hparse) in Hok. discriminate Hok.
Qed.

(** X2: [testToken] hands every properly signed, currently valid token to
    the lookup, whoever made it and whichever HMAC variant it declares.  If
    the token decodes, declares HS256, HS384 or HS512, carries the MAC of
    its signing string under the configured secret, has valid registered
    claims, the configured issuer, and notBefore <= now < expiresAt at the
    second clock reading, then the result of [testToken] is exactly the
    pair the lookup returns for the subject, its error included. *)
Theorem testToken_accepts_signed_valid (tokenString : string) (w : World)
  (d : Decoded) (h : HashAlg)
  (Hdec : jwt_decodeSegments tokenString = inl d)
  (Halg : header_get (dec_header d) "alg" = Some (Alg (SigningMethodHMAC h)))
  (Hseg : DecodeSegment (dec_signature d)
          = inl (hmac_Sum h jwtSecret (bytes_of_string (dec_signing d))))
  (Hstd : StandardClaims_Valid (Standard (dec_claims d))
            (Time_Unix (clock w (ticks w))) = None)
  (Hiss : Issuer (dec_claims d) = jwtIssuer)
  (Hnbf : NotBefore (dec_claims d) <= Time_Unix (clock w (S (ticks w))))
  (Hexp : Time_Unix (clock w (S (ticks w))) < Expires (dec_claims d)) :
  testToken tokenString w
  = (GetUserWithId db_Db (Subject (dec_claims d)),
     mkWorld (clock w) (S (S (ticks w))) (entropy w) (S (compared w))).
Proof.
  rewrite (testToken_HMAC_outcome _ w _ _ _ Hdec Halg Hseg).
  rewrite Hstd, hmac_Equal_refl. cbn [claims_vErr signature_vErr snd N.eqb].
  assert (Hcheck : fst (areClaimsValid (dec_claims d) (after_verification w)) = true).
  { apply areClaimsValid_true. repeat split; assumption. }
  rewrite Hcheck. reflexivity.
Qed.

(** X7: a token whose signature segment is not the MAC of its signing
    string under the configured secret is refused, whatever its claims say:
    [testToken] returns the zero User and a validation error whose inner
    error is [ErrSignatureInvalid] and whose signature-invalid bit is set.
    The claims check is not reached (the clock is read once, not twice), so
    a forged token that is also expired is reported as forged. *)
Theorem testToken_rejects_wrong_signature (tokenString : string) (w : World)
  (d : Decoded) (h : HashAlg) (sig : bytes)
  (Hdec : jwt_decodeSegments tokenString = inl d)
  (Halg : header_get (dec_header d) "alg" = Some (Alg (SigningMethodHMAC h)))
  (Hseg : DecodeSegment (dec_signature d) = inl sig)
  (Hwrong : sig <> hmac_Sum h jwtSecret (bytes_of_string (dec_signing d))) :
  exists flags : N,
    testToken tokenString w
    = ((User_zero, Some (ValidationError (Some ErrSignatureInvalid) flags)),
       mkWorld (clock w) (S (ticks w)) (entropy w) (S (compared w)))
    /\ N.testbit flags 2 = true.
Proof.
  rewrite (testToken_HMAC_outcome _ w _ _ _ Hdec Halg Hseg).
  rewrite (hmac_Equal_neq _ _ Hwrong). cbv zeta.
  rewrite signature_flag_set. cbn [signature_vErr fst snd].
  eexists. split; [reflexivity|].
  rewrite N.lor_spec. apply orb_true_r.
Qed.

End VerifierFacts.

Section LifetimeFacts.

Context {P : Packages} {C : Codec}.

(** X3: the full life of an issued token.  [generateToken] returns the
    token for [user]; provided that the codec reads it back and that empty
    registered claims are valid, a later [testToken] in any world, with any
    clock, returns what the lookup returns for the id of [user] when the
    Unix second [now] of its second clock reading satisfies
    mint1 - 3600 <= now < mint2 + 5184000 (the Unix seconds of the two
    readings taken while issuing), and otherwise the zero User with
    "Claims are invalid.": too early by more than the hour of grace, or
    sixty days or more after issuing. *)
Theorem testToken_issued_window (user : User) (w wv : World) (sstr : string) :
  let t1 := clock w (ticks w) in
  let t2 := clock w (S (ticks w)) in
  let claims := mintedClaims user t1 t2 in
  let mac := hmac_Sum SHA256 jwtSecret (bytes_of_string sstr) in
  let token := (sstr ++ "." ++ EncodeSegment mac)%string in
  let now := Time_Unix (clock wv (S (ticks wv))) in
  forall
    (Hsstr : jwt_SigningString [("typ", "JWT"); ("alg", "HS256")] (ClaimsJwt claims)
             = inl sstr)
    (Hdec : jwt_decodeSegments token
            = inl {| dec_header := [("typ", "JWT"); ("alg", "HS256")];
                     dec_claims := claims;
                     dec_signing := sstr;
                     dec_signature := EncodeSegment mac |})
    (Hseg : DecodeSegment (EncodeSegment mac) = inl mac)
    (Hstd : StandardClaims_Valid StandardClaims_zero
              (Time_Unix (clock wv (ticks wv))) = None),
  fst (generateToken user w) = (token, None)
  /\ testToken token wv
     = (if (Time_Unix t1 - 3600 <=? now) && (now <? Time_Unix t2 + 5184000)
        then GetUserWithId db_Db (User_Id user)
        else (User_zero, Some (errors_New "Claims are invalid.")),
        mkWorld (clock wv) (S (S (ticks wv))) (entropy wv) (S (compared wv))).
Proof.
  intros t1 t2 claims mac token now Hsstr Hdec Hseg Hstd.
  split.
  - rewrite generateToken_unfold. cbn [fst]. fold t1 t2 claims.
    unfold Token_SignedString, jwt_NewWithClaims.
    cbn [TokenClaims TokenHeader Method]. cbn [Alg SigningMethodHS256 hash_suffix].
    change ("HS" ++ "256")%string with "HS256".
    rewrite Hsstr. reflexivity.
  - rewrite (testToken_HMAC_outcome token wv _ SHA256 mac Hdec eq_refl Hseg).
    cbn [dec_claims dec_signing].
    change (Standard claims) with StandardClaims_zero.
    rewrite Hstd. fold mac. rewrite hmac_Equal_refl.
    cbn [claims_vErr signature_vErr snd N.eqb].
    rewrite areClaimsValid_world, areClaimsValid_unfold. cbn [fst].
    change (clock (after_verification wv) (ticks (after_verification wv)))
      with (clock wv (S (ticks wv))).
    fold now. unfold claims, mintedClaims. cbn [Issuer NotBefore Expires Subject].
    rewrite String.eqb_refl, Unix_minus_hour, Unix_plus_60_days.
    reflexivity.
Qed.

(** X4: the window of an issued token in real time.  The claims that
    [generateToken] builds from the clock readings [t1] and [t2] pass
    [areClaimsValid] at a reading [t] exactly when [t] lies between the
    start of the second of [t1], one hour earlier, and the start of the
    second of [t2], sixty days later.  Both bounds are rounded down to whole
    seconds, so a token is refused up to one second before sixty days have
    elapsed. *)
Theorem areClaimsValid_minted_real_time (user : User) (t1 t2 : Time) (wv : World) :
  let t := clock wv (ticks wv) in
  (fst (areClaimsValid (mintedClaims user t1 t2) wv) = true
   <-> t1 - t1 mod Second - Hour <= t /\ t < t2 - t2 mod Second + 60 * 24 * Hour)
  /\ (fst (areClaimsValid (mintedClaims user t1 t2) wv) = false
      <-> t < t1 - t1 mod Second - Hour \/ t2 - t2 mod Second + 60 * 24 * Hour <= t).
Proof.
  intros t.
  assert (Hiff : fst (areClaimsValid (mintedClaims user t1 t2) wv) = true
                 <-> t1 - t1 mod Second - Hour <= t
                     /\ t < t2 - t2 mod Second + 60 * 24 * Hour).
  { rewrite areClaimsValid_true. fold t.
    unfold mintedClaims. cbn [Issuer NotBefore Expires].
    rewrite Unix_minus_hour, Unix_plus_60_days.
    unfold Time_Unix.
    change Hour with 3600000000000. change Second with 1000000000.
    pose proof (Z.div_mod t1 1000000000 ltac:(discriminate)) as E1.
    pose proof (Z.mod_pos_bound t1 1000000000 ltac:(reflexivity)) as B1.
    pose proof (Z.div_mod t2 1000000000 ltac:(discriminate)) as E2.
    pose proof (Z.mod_pos_bound t2 1000000000 ltac:(reflexivity)) as B2.
    pose proof (Z.div_mod t 1000000000 ltac:(discriminate)) as E.
    pose proof (Z.mod_pos_bound t 1000000000 ltac:(reflexivity)) as B.
    split.
    - intros (_ & Hnbf & Hexp). lia.
    - intros (Hnbf & Hexp). split; [reflexivity|]. lia. }
  split; [exact Hiff|].
  destruct (fst (areClaimsValid (mintedClaims user t1 t2) wv)).
  - split; [discriminate|]. intros Hout.
    assert (Hin : t1 - t1 mod Second - Hour <= t
                  /\ t < t2 - t2 mod Second + 60 * 24 * Hour)
      by (apply Hiff; reflexivity).
    lia.
  - split; [|reflexivity]. intros _.
    destruct (Z.lt_ge_cases t (t1 - t1 mod Second - Hour)) as [Hlt|Hge];
      [left; exact Hlt|].
    destruct (Z.le_gt_cases (t2 - t2 mod Second + 60 * 24 * Hour) t) as [Hle|Hgt];
      [right; exact Hle|].
    assert (Habs : false = true) by (apply Hiff; split; assumption).
    discriminate Habs.
Qed.

(** X5: under a clock that does not run backwards, validity never comes
    back.  For three readings in order, claims that [areClaimsValid]
    accepted at the first and refused at the second are refused at the
    third; so claims accepted at the first and the third were accepted in
    between, and a token, once expired, stays expired. *)
Theorem areClaimsValid_no_revival (claims : jwtClaims) (wa wb wc : World)
  (Hab : clock wa (ticks wa) <= clock wb (ticks wb))
  (Hbc : clock wb (ticks wb) <= clock wc (ticks wc)) :
  (fst (areClaimsValid claims wa) = true ->
   fst (areClaimsValid claims wb) = false ->
   fst (areClaimsValid claims wc) = false)
  /\ (fst (areClaimsValid claims wa) = true ->
      fst (areClaimsValid claims wc) = true ->
      fst (areClaimsValid claims wb) = true)
  /\ (Expires claims <= Time_Unix (clock wa (ticks wa)) ->
      fst (areClaimsValid claims wb) = false).
Proof.
  pose proof (Unix_mono _ _ Hab) as Mab.
  pose proof (Unix_mono _ _ Hbc) as Mbc.
  pose proof (areClaimsValid_true claims wa) as Ia.
  pose proof (areClaimsValid_true claims wb) as Ib.
  pose proof (areClaimsValid_true claims wc) as Ic.
  split; [|split].
  - intros Ha Hb.
    destruct (fst (areClaimsValid claims wc)) eqn:Hc; [|reflexivity].
    apply Ia in Ha. destruct Ha as (Hiss & Hnbf & _).
    destruct (proj1 Ic eq_refl) as (_ & _ & Hexp).
    assert (Habs : fst (areClaimsValid claims wb) = true)
      by (apply Ib; repeat split; [assumption | lia | lia]).
    congruence.
  - intros Ha Hc.
    apply Ia in Ha. destruct Ha as (Hiss & Hnbf & _).
    apply Ic in Hc. destruct Hc as (_ & _ & Hexp).
    apply Ib. repeat split; [assumption | lia | lia].
  - intros Hexpired.
    destruct (fst (areClaimsValid claims wb)) eqn:Hb; [|reflexivity].
    destruct (proj1 Ib eq_refl) as (_ & _ & Hexp). lia.
Qed.

(** X6: a token carries nothing but the issuer, the two bounds in whole
    seconds and the id.  Two calls of [generateToken], for users with the
    same id and with clock readings in the same seconds, return the same
    token and the same error: there is no nonce, and no other field of the
    user enters the token. *)
Theorem generateToken_same_second (user user' : User) (w w' : World)
  (Hid : User_Id user = User_Id user')
  (Hfirst : Time_Unix (clock w (ticks w)) = Time_Unix (clock w' (ticks w')))
  (Hsecond : Time_Unix (clock w (S (ticks w))) = Time_Unix (clock w' (S (ticks w')))) :
  fst (generateToken user w) = fst (generateToken user' w').
Proof.
  rewrite !generateToken_unfold. cbn [fst].
  unfold mintedClaims.
  rewrite !Unix_minus_hour, !Unix_plus_60_days, Hid, Hfirst, Hsecond.
  reflexivity.
Qed.

End LifetimeFacts.

Section PasswordComposition.

Context {P : Packages}.

(** X8: checking a password against a freshly made hash string asks bcrypt
    about exactly the bytes bcrypt produced.  The hash survives the
    conversion to a string and back, the hash goes first and the candidate
    password second, the error and the state of the random source that
    bcrypt returned are passed on as they are, the cost is the configured
    hash difficulty, and two passwords are handed over as the same bytes
    only when they are the same string. *)
Theorem passwordMatchesHash_getPasswordHash (password candidate : string) (w : World) :
  let r := bcrypt_GenerateFromPassword (bytes_of_string password)
             (HashDifficulty config_LoadConfiguration) w in
  passwordMatchesHash candidate (fst (fst (getPasswordHash password w)))
  = bcrypt_CompareHashAndPassword (fst (fst r)) (bytes_of_string candidate)
  /\ snd (fst (getPasswordHash password w)) = snd (fst r)
  /\ snd (getPasswordHash password w) = snd r
  /\ (bytes_of_string candidate = bytes_of_string password -> candidate = password).
Proof.
  intros r. rewrite getPasswordHash_forwards. fold bCryptCost in r. fold r.
  cbn [fst snd]. rewrite passwordMatchesHash_forwards.
  repeat split.
  intros Heq.
  rewrite <- (string_of_bytes_of_string candidate), Heq.
  apply string_of_bytes_of_string.
Qed.

End PasswordComposition.

(** ** The further properties on the demo instance *)

Module DemoLifetime.
Import Demo.

(** [token42] verified at [start]. *)
Lemma testToken_success_inversion_witness :
  testToken token42 w0 = ((user42, None), mkWorld (clock w0) 2 0 1)
  /\ exists (d : Decoded) (h : HashAlg),
       jwt_decodeSegments token42 = inl d
       /\ header_get (dec_header d) "alg" = Some (Alg (SigningMethodHMAC h))
       /\ DecodeSegment (dec_signature d)
          = inl (hmac_Sum h jwtSecret (bytes_of_string (dec_signing d)))
       /\ Issuer (dec_claims d) = jwtIssuer
       /\ NotBefore (dec_claims d) <= Time_Unix (clock w0 (S (ticks w0)))
       /\ Time_Unix (clock w0 (S (ticks w0))) < Expires (dec_claims d)
       /\ GetUserWithId db_Db (Subject (dec_claims d)) = (user42, None)
       /\ mkWorld (clock w0) 2 0 1
          = mkWorld (clock w0) (S (S (ticks w0))) (entropy w0) (S (compared w0)).
Proof.
  assert (Hok : testToken token42 w0 = ((user42, None), mkWorld (clock w0) 2 0 1))
    by reflexivity.
  split; [exact Hok|].
  exact (testToken_success_inversion token42 w0 _ user42 Hok).
Defined.

(** The claims of user 42 signed under HS384 with the configured secret. *)
Lemma testToken_accepts_signed_valid_witness :
  testToken "HS384.trackit,1499996400,1505184000,42.s3cret384250067706" w0
  = (GetUserWithId db_Db (Subject (dec_claims (decoded "HS384" claims42 "s3cret384250067706"))),
     mkWorld (clock w0) (S (S (ticks w0))) (entropy w0) (S (compared w0))).
Proof.
  refine (testToken_accepts_signed_valid
            "HS384.trackit,1499996400,1505184000,42.s3cret384250067706" w0
            (decoded "HS384" claims42 "s3cret384250067706") SHA384 _ _ _ _ _ _ _).
  - reflexivity.
  - reflexivity.
  - reflexivity.
  - reflexivity.
  - reflexivity.
  - vm_compute; discriminate.
  - vm_compute; reflexivity.
Defined.

(** The token issued to user 42 at [start], verified thirty days and
    sixty-one days later. *)
Lemma testToken_issued_window_witness :
  (fst (generateToken user42 w0) = (token42, None)
   /\ testToken token42 (world_at (start + 30 * day))
      = ((user42, None), mkWorld (clock (world_at (start + 30 * day))) 2 0 1))
  /\ (fst (generateToken user42 w0) = (token42, None)
      /\ testToken token42 (world_at (start + 61 * day))
         = ((no_user, Some (errors_New "Claims are invalid.")),
            mkWorld (clock (world_at (start + 61 * day))) 2 0 1)).
Proof.
  split.
  - refine (testToken_issued_window user42 w0 (world_at (start + 30 * day))
              "HS256.trackit,1499996400,1505184000,42" _ _ _ _); reflexivity.
  - refine (testToken_issued_window user42 w0 (world_at (start + 61 * day))
              "HS256.trackit,1499996400,1505184000,42" _ _ _ _); reflexivity.
Defined.

(** The claims of [token42] at [start], 61 days later and 62 days later. *)
Lemma areClaimsValid_no_revival_witness :
  (fst (areClaimsValid claims42 w0) = true ->
   fst (areClaimsValid claims42 (world_at (start + 61 * day))) = false ->
   fst (areClaimsValid claims42 (world_at (start + 62 * day))) = false)
  /\ (fst (areClaimsValid claims42 w0) = true ->
      fst (areClaimsValid claims42 (world_at (start + 62 * day))) = true ->
      fst (areClaimsValid claims42 (world_at (start + 61 * day))) = true)
  /\ (Expires claims42 <= Time_Unix (clock w0 (ticks w0)) ->
      fst (areClaimsValid claims42 (world_at (start + 61 * day))) = false).
Proof.
  refine (areClaimsValid_no_revival claims42 w0 (world_at (start + 61 * day))
            (world_at (start + 62 * day)) _ _).
  - vm_compute; discriminate.
  - vm_compute; discriminate.
Defined.

(** Two users with the id 42, served half a second apart. *)
Lemma generateToken_same_second_witness :
  fst (generateToken user42 w0)
  = fst (generateToken {| id := 42; email := "second@example.org" |}
                       (world_at (start + 500000000))).
Proof.
  refine (generateToken_same_second user42
            {| id := 42; email := "second@example.org" |}
            w0 (world_at (start + 500000000)) _ _ _).
  - reflexivity.
  - vm_compute; reflexivity.
  - vm_compute; reflexivity.
Defined.

(** [token42] with its subject changed from 42 to 7 and its signature
    kept. *)
Lemma testToken_rejects_wrong_signature_witness :
  exists flags : N,
    testToken "HS256.trackit,1499996400,1505184000,7.s3cret2563764243350" w0
    = ((User_zero, Some (ValidationError (Some ErrSignatureInvalid) flags)),
       mkWorld (clock w0) (S (ticks w0)) (entropy w0) (S (compared w0)))
    /\ N.testbit flags 2 = true.
Proof.
  refine (testToken_rejects_wrong_signature
            "HS256.trackit,1499996400,1505184000,7.s3cret2563764243350" w0
            (decoded "HS256"
               {| Issuer := "trackit"; NotBefore := 1499996400;
                  Expires := 1505184000; Subject := 7; Standard := tt |}
               "s3cret2563764243350")
            SHA256 (bytes_of_string "s3cret2563764243350") _ _ _ _).
  - reflexivity.
  - reflexivity.
  - reflexivity.
  - intros Heq. vm_compute in Heq. discriminate Heq.
Defined.

End DemoLifetime.

Section MalformedTokens.

Context {P : Packages} {C : Codec}.

(** X9: a token string that cannot be taken apart never reaches the key
    function.  When the decoding fails, [testToken] returns the zero User
    and the error of the decoder as it is; when the header declares no
    algorithm at all, it returns the zero User and an error of the
    "unverifiable" kind.  In both cases the world is left untouched: the
    clock is not read, no signature is compared, and the lookup is not
    asked. *)
Theorem testToken_rejects_undecodable (tokenString : string) (w : World) :
  (forall err,
      jwt_decodeSegments tokenString = inr err ->
      testToken tokenString w = ((User_zero, Some err), w))
  /\ (forall d,
      jwt_decodeSegments tokenString = inl d ->
      header_get (dec_header d) "alg" = None ->
      testToken tokenString w
      = ((User_zero, Some (ValidationError None ValidationErrorUnverifiable)), w)).
Proof.
  split.
  - intros err Hdec. unfold testToken.
    apply testTokenWith_rejected.
    unfold jwt_ParseWithClaims. rewrite Hdec. reflexivity.
  - intros d Hdec Halg. unfold testToken.
    apply testTokenWith_rejected.
    unfold jwt_ParseWithClaims. rewrite Hdec, Halg. reflexivity.
Qed.

End MalformedTokens.

Module DemoMalformed.
Import Demo.

(** The empty string, a string without dots, and claims that are not
    numbers. *)
Example testToken_malformed_strings :
  map (fun s => testToken s w0)
      [""; "garbage"; "HS256.trackit,soon,later,42.s3cret"]
  = [((no_user, Some malformed), w0);
     ((no_user, Some malformed), w0);
     ((no_user, Some malformed), w0)].
Proof. reflexivity. Qed.

End DemoMalformed.

(** ** Signatures made with another secret *)

Section SignatureFacts.

Context {P : Packages} {C : Codec}.

(** C5, as the code has it: what decides is the MAC, not the secret.  For a
    token that decodes, declares an HMAC algorithm, has valid registered
    claims and a signature segment that decodes to [sig]:
    - if [sig] is not the MAC of the signing string under the configured
      secret, [testToken] returns the zero User and a validation error whose
      inner error is [ErrSignatureInvalid] and whose only bit is the
      signature-invalid one; this is the case of a token signed with
      another secret whose MAC differs, and of an altered copy of a valid
      token that still decodes;
    - if [sig] is that MAC, the token passes the signature check and goes
      on to the claims check, also when it was computed with a secret other
      than the configured one. *)
Theorem testToken_signature_decides (tokenString : string) (w : World)
  (d : Decoded) (h : HashAlg) (sig : bytes)
  (Hdec : jwt_decodeSegments tokenString = inl d)
  (Halg : header_get (dec_header d) "alg" = Some (Alg (SigningMethodHMAC h)))
  (Hseg : DecodeSegment (dec_signature d) = inl sig)
  (Hstd : StandardClaims_Valid (Standard (dec_claims d))
            (Time_Unix (clock w (ticks w))) = None) :
  let mac := hmac_Sum h jwtSecret (bytes_of_string (dec_signing d)) in
  let refused :=
    ((User_zero,
      Some (ValidationError (Some ErrSignatureInvalid) ValidationErrorSignatureInvalid)),
     after_verification w) in
  (sig <> mac -> testToken tokenString w = refused)
  /\ (forall secret' : bytes,
        sig = hmac_Sum h secret' (bytes_of_string (dec_signing d)) ->
        secret' <> jwtSecret ->
        hmac_Sum h secret' (bytes_of_string (dec_signing d)) <> mac ->
        testToken tokenString w = refused)
  /\ (sig = mac ->
      testToken tokenString w
      = (if fst (areClaimsValid (dec_claims d) (after_verification w))
         then GetUserWithId db_Db (Subject (dec_claims d))
         else (User_zero, Some (errors_New "Claims are invalid.")),
         mkWorld (clock w) (S (S (ticks w))) (entropy w) (S (compared w))))
  /\ (forall secret' : bytes,
        sig = hmac_Sum h secret' (bytes_of_string (dec_signing d)) ->
        hmac_Sum h secret' (bytes_of_string (dec_signing d)) = mac ->
        testToken tokenString w <> refused).
Proof.
  intros mac refused.
  pose proof (testToken_HMAC_outcome _ w _ _ _ Hdec Halg Hseg) as Hout.
  rewrite Hstd in Hout. fold mac in Hout. cbv zeta in Hout.
  assert (Hno : sig <> mac -> testToken tokenString w = refused).
  { intros Hne. rewrite Hout, (hmac_Equal_neq _ _ Hne).
    rewrite signature_flag_set. reflexivity. }
  assert (Hyes : sig = mac ->
                 testToken tokenString w
                 = (if fst (areClaimsValid (dec_claims d) (after_verification w))
                    then GetUserWithId db_Db (Subject (dec_claims d))
                    else (User_zero, Some (errors_New "Claims are invalid.")),
                    mkWorld (clock w) (S (S (ticks w))) (entropy w) (S (compared w)))).
  { intros Heq. rewrite Hout, Heq, hmac_Equal_refl.
    cbn [claims_vErr signature_vErr snd N.eqb].
    rewrite areClaimsValid_world. reflexivity. }
  split; [exact Hno|]. split; [|split; [exact Hyes|]].
  - intros secret' Hsig _ Hne. apply Hno. rewrite Hsig. exact Hne.
  - intros secret' Hsig Heq Hrefused.
    rewrite Hyes in Hrefused by (rewrite Hsig; exact Heq).
    unfold refused, after_verification in Hrefused.
    injection Hrefused as _ Hticks.
    apply (n_Sn (ticks w)). symmetry. exact Hticks.
Qed.

End SignatureFacts.

(** Keys that [crypto/hmac] does not tell apart: a key shorter than the
    block and the same key followed by a zero byte fill the same block, so
    they give the same MAC for every message, whatever the hash. *)
Lemma Hmac_block_key_zero (H : bytes -> bytes) (B : nat) (key : bytes) :
  (List.length key < B)%nat ->
  Hmac.block_key H B (key ++ [x00])%list = Hmac.block_key H B key.
Proof.
  intros Hlen. unfold Hmac.block_key. cbv zeta.
  assert (Hlong : Nat.ltb B (List.length (key ++ [x00])%list) = false)
    by (apply Nat.ltb_ge; rewrite length_app; cbn [List.length]; lia).
  assert (Hshort : Nat.ltb B (List.length key) = false)
    by (apply Nat.ltb_ge; lia).
  rewrite Hlong, Hshort, length_app. cbn [List.length].
  rewrite <- app_assoc. f_equal.
  replace (B - List.length key)%nat with (S (B - (List.length key + 1)))%nat by lia.
  reflexivity.
Qed.

Lemma Hmac_Sum_zero (H : bytes -> bytes) (B : nat) (key message : bytes) :
  (List.length key < B)%nat ->
  Hmac.Sum H B (key ++ [x00])%list message = Hmac.Sum H B key message.
Proof.
  intros Hlen. unfold Hmac.Sum.
  rewrite (Hmac_block_key_zero H B key Hlen). reflexivity.
Qed.

Module DemoSignatureFacts.
Import Demo.

(** [token42] re-signed under the secret "other". *)
Lemma testToken_signature_decides_witness :
  let d := decoded "HS256" claims42 "other2563764243350" in
  let mac := hmac_Sum SHA256 jwtSecret (bytes_of_string (dec_signing d)) in
  let refused :=
    ((User_zero,
      Some (ValidationError (Some ErrSignatureInvalid) ValidationErrorSignatureInvalid)),
     after_verification w0) in
  (bytes_of_string "other2563764243350" <> mac ->
   testToken token_other_secret w0 = refused)
  /\ (forall secret' : bytes,
        bytes_of_string "other2563764243350"
        = hmac_Sum SHA256 secret' (bytes_of_string (dec_signing d)) ->
        secret' <> jwtSecret ->
        hmac_Sum SHA256 secret' (bytes_of_string (dec_signing d)) <> mac ->
        testToken token_other_secret w0 = refused)
  /\ (bytes_of_string "other2563764243350" = mac ->
      testToken token_other_secret w0
      = (if fst (areClaimsValid (dec_claims d) (after_verification w0))
         then GetUserWithId db_Db (Subject (dec_claims d))
         else (User_zero, Some (errors_New "Claims are invalid.")),
         mkWorld (clock w0) (S (S (ticks w0))) (entropy w0) (S (compared w0))))
  /\ (forall secret' : bytes,
        bytes_of_string "other2563764243350"
        = hmac_Sum SHA256 secret' (bytes_of_string (dec_signing d)) ->
        hmac_Sum SHA256 secret' (bytes_of_string (dec_signing d)) = mac ->
        testToken token_other_secret w0 <> refused).
Proof.
  refine (testToken_signature_decides token_other_secret w0
            (decoded "HS256" claims42 "other2563764243350") SHA256
            (bytes_of_string "other2563764243350") _ _ _ _).
  - reflexivity.
  - reflexivity.
  - reflexivity.
  - reflexivity.
Defined.

(** The secret "other" does give another MAC in [Demo], so that token is
    refused. *)
Example testToken_other_secret_refused :
  sign_demo SigningMethodHS256 claims42 (bytes_of_string "other") = token_other_secret
  /\ fst (testToken token_other_secret w0)
     = (no_user,
        Some (ValidationError (Some ErrSignatureInvalid) ValidationErrorSignatureInvalid)).
Proof. split; reflexivity. Qed.

End DemoSignatureFacts.

Module DemoHmacFacts.
Import DemoHmac.

(** C5 as stated fails: with HMAC as the MAC and "s3cret" as the configured
    secret, the token of user 42 signed with the different secret
    "s3cret" followed by a zero byte is accepted by [testToken], which
    returns user 42 and no error. *)
Lemma testToken_accepts_other_secret :
  longer_secret <> jwtSecret
  /\ Token_SignedString (jwt_NewWithClaims SigningMethodHS256 claims42) longer_secret
     = ("HS256.trackit,1499996400,1505184000,42.2563970628678", None)
  /\ testToken "HS256.trackit,1499996400,1505184000,42.2563970628678" Demo.w0
     = ((Demo.user42, None), mkWorld (clock Demo.w0) 2 0 1)
  /\ (forall (H : bytes -> bytes) (message : bytes),
        Hmac.Sum H 64 longer_secret message
        = Hmac.Sum H 64 (bytes_of_string "s3cret") message).
Proof.
  split; [discriminate|].
  split; [reflexivity|].
  split; [reflexivity|].
  intros H message. apply Hmac_Sum_zero. cbn. lia.
Defined.

(** A copy of the valid token with one bit of its first separator flipped
    (a dot becomes a slash) no longer has three segments: it is refused
    as malformed, before any signature is looked at. *)
Example testToken_flipped_separator :
  testToken "HS256/trackit,1499996400,1505184000,42.2563970628678" Demo.w0
  = ((Demo.no_user, Some Demo.malformed), Demo.w0).
Proof. reflexivity. Qed.

End DemoHmacFacts.
